(** * YamDb: the views of the review site API (api/views.py)

    A shallow embedding of [api/views.py].  The view functions are written
    in a state-and-exception monad over the database tables, the mail
    outbox, the clock and the random source; the pieces of Django and of
    Django REST framework they call (query sets, password hashers,
    serializers' validation cache, view-set mixins) are modelled next to
    them.  The modules of the repository that [views.py] imports but that
    are not part of this development (models, serializers, settings) are
    taken as parameters of the class [Env] or modelled where noted. *)

From Stdlib Require Import String Ascii List ZArith Lia Bool.
From Stdlib Require Import Permutation Sorted SpecFloat DecimalString.
Import ListNotations.

Local Open Scope Z_scope.
Local Open Scope string_scope.

(** ** Request data, error details and responses *)

(** [request.data]: the submitted fields. *)
Definition Data := list (string * string).

(** The detail of a [ValidationError] raised by a serializer: the
    framework only raises it with at least one failing field, so the
    detail is a non-empty dictionary of messages per field.  The empty
    dictionary [{}] of [serializer._errors] is [None] below. *)
Record ErrorDetail := mkErrorDetail {
  first_error : string * list string;
  more_errors : list (string * list string)
}.

Inductive Method := GET | POST | PUT | PATCH | DELETE | HEAD | OPTIONS | TRACE.

Definition Method_eqb (a b : Method) : bool :=
  match a, b with
  | GET, GET | POST, POST | PUT, PUT | PATCH, PATCH | DELETE, DELETE
  | HEAD, HEAD | OPTIONS, OPTIONS | TRACE, TRACE => true
  | _, _ => false
  end.

(** rest_framework.status *)
Definition HTTP_200_OK : Z := 200.
Definition HTTP_201_CREATED : Z := 201.
Definition HTTP_204_NO_CONTENT : Z := 204.
Definition HTTP_400_BAD_REQUEST : Z := 400.
Definition HTTP_401_UNAUTHORIZED : Z := 401.
Definition HTTP_403_FORBIDDEN : Z := 403.
Definition HTTP_404_NOT_FOUND : Z := 404.
Definition HTTP_405_METHOD_NOT_ALLOWED : Z := 405.
Definition HTTP_500_INTERNAL_SERVER_ERROR : Z := 500.

(** ** Models (rows of the relational tables) *)

(** The text a password column stores, split at its separators into the
    name of the algorithm, the salt and the digest.  A text that is no
    encoding, such as the empty one, names no algorithm of a hasher. *)
Record Encoded := mkEncoded {
  enc_algorithm : string;
  enc_salt : string;
  enc_hash : string
}.

Module User.
(** Modelled from the spec: the [User] model of api/models.py, with the
    columns the views read and write.  [confirmation_code] is [None]
    when the column is NULL. *)
Record t := mk {
  id : Z;
  username : string;
  email : string;
  confirmation_code : option Encoded;
  role : string;
  bio : string
}.

Definition set_confirmation_code (c : option Encoded) (u : t) : t :=
  mk (id u) (username u) (email u) c (role u) (bio u).
End User.

Module Title.
(** Modelled from the spec: the [Title] model of api/models.py, a
    reviewable work, with its primary key. *)
Record t := mk { id : Z; name : string; year : Z }.
End Title.

Module Review.
(** Modelled from the spec: the [Review] model of api/models.py: a review
    belongs to one title and carries a score. *)
Record t := mk {
  id : Z;
  title_id : Z;
  author_id : Z;
  score : Z;
  text : string
}.
End Review.

Module Comment.
(** Modelled from the spec: the [Comment] model of api/models.py: a
    comment belongs to one review and has an author. *)
Record t := mk {
  id : Z;
  review_id : Z;
  author_id : Z;
  text : string
}.
End Comment.

(** ** The world the views run in *)

Record EmailMessage := mkEmail {
  mail_subject : string;
  mail_message : string;
  mail_from : string;
  mail_recipients : list string
}.

Record World := mkWorld {
  users : list User.t;
  titles : list Title.t;
  reviews : list Review.t;
  comments : list Comment.t;
  outbox : list EmailMessage;   (* what send_mail handed to the transport *)
  now : Z;                      (* the clock, in seconds *)
  draws : nat                   (* random values consumed so far *)
}.

Definition set_users (us : list User.t) (w : World) : World :=
  mkWorld us (titles w) (reviews w) (comments w) (outbox w) (now w) (draws w).
Definition set_comments (cs : list Comment.t) (w : World) : World :=
  mkWorld (users w) (titles w) (reviews w) cs (outbox w) (now w) (draws w).
Definition set_outbox (ms : list EmailMessage) (w : World) : World :=
  mkWorld (users w) (titles w) (reviews w) (comments w) ms (now w) (draws w).
Definition set_now (t : Z) (w : World) : World :=
  mkWorld (users w) (titles w) (reviews w) (comments w) (outbox w) t (draws w).
Definition set_draws (n : nat) (w : World) : World :=
  mkWorld (users w) (titles w) (reviews w) (comments w) (outbox w) (now w) n.

(** ** Exceptions and the monad of views *)

Inductive Exn :=
| Http404
| ValidationError (detail : ErrorDetail)
| MultipleObjectsReturned
| AssertionError
| KeyError
| ValueError
| TypeError
| OverflowError
| NotAuthenticated
| PermissionDenied.

Definition M (A : Type) : Type := World -> (Exn + A) * World.

Definition ret {A} (a : A) : M A := fun w => (inr a, w).

Definition raise {A} (e : Exn) : M A := fun w => (inl e, w).

Definition bind {A B} (m : M A) (k : A -> M B) : M B :=
  fun w =>
    match m w with
    | (inl e, w') => (inl e, w')
    | (inr a, w') => k a w'
    end.

Definition gets {A} (f : World -> A) : M A := fun w => (inr (f w), w).

Definition modify (f : World -> World) : M unit := fun w => (inr tt, f w).

(** A pure step that can raise, run inside a view. *)
Definition lift {A} (r : Exn + A) : M A := fun w => (r, w).

Declare Scope view_scope.
Delimit Scope view_scope with view.
Notation "x <- m ;; k" := (bind m (fun x => k))
  (at level 61, m at next level, right associativity) : view_scope.
Notation "' pat <- m ;; k" := (bind m (fun x => match x with pat => k end))
  (at level 61, pat pattern, m at next level, right associativity) : view_scope.
Notation "m ;; k" := (bind m (fun _ => k))
  (at level 61, right associativity) : view_scope.
Local Open Scope view_scope.

Record Request := mkRequest {
  method : Method;
  data : Data;
  user : option User.t          (* None is the anonymous user *)
}.

Definition is_authenticated (r : Request) : bool :=
  match user r with Some _ => true | None => false end.

Inductive Body :=
| Text (s : string)
| Dict (kv : list (string * string))
| Errors (detail : ErrorDetail)
| Items (rows : list (list (string * string)))
| Metadata                      (* the description OPTIONS answers with *)
| NoBody.

Record Response := mkResponse { body : Body; status : Z }.

Definition errors_body (e : option ErrorDetail) : Body :=
  match e with
  | Some detail => Errors detail
  | None => Dict []
  end.

(** ** Serializers: the validation cache of rest_framework

    [Serializer.is_valid] runs the validation once and keeps its outcome
    in [_validated_data] and [_errors]; later calls read the cache.
    [_validation] is [None] until then, [Some (inl detail)] for
    [_validated_data = {}] with [_errors = detail], and [Some (inr v)] for
    [_validated_data = v] with [_errors = {}]. *)
Record Serializer (V : Type) := mkSerializer {
  run_validation : Data -> ErrorDetail + V;
  initial_data : Data;
  _validation : option (ErrorDetail + V)
}.
Arguments mkSerializer {V}.
Arguments run_validation {V}.
Arguments initial_data {V}.
Arguments _validation {V}.

Definition is_valid {V} (self : Serializer V) (raise_exception : bool)
  : Exn + (bool * Serializer V) :=
  let self :=
    match _validation self with
    | Some _ => self
    | None =>
        mkSerializer (run_validation self) (initial_data self)
                     (Some (run_validation self (initial_data self)))
    end in
  match _validation self with
  | Some (inl detail) =>
      if raise_exception then inl (ValidationError detail)
      else inr (false, self)
  | _ => inr (true, self)
  end.

Definition validated_data {V} (self : Serializer V) : Exn + V :=
  match _validation self with
  | None => inl AssertionError
  | Some (inl _) => inl KeyError     (* a field read from the empty dict *)
  | Some (inr v) => inr v
  end.

Definition errors {V} (self : Serializer V) : option ErrorDetail :=
  match _validation self with
  | Some (inl detail) => Some detail
  | _ => None
  end.

(** [serializer.data] of a serializer without instance: the validated
    fields, represented as they were validated. *)
Definition serializer_data {V} (self : Serializer V) : Exn + V :=
  validated_data self.

(** ** What the views take from outside views.py *)

Record UUID := mkUUID { hex : string }.

Definition str_uuid (u : UUID) : string := hex u.

Record AccessToken := mkAccessToken {
  token_type : string;
  token_user_id : Z;
  exp : Z;
  jti : string
}.

Record CodeSubmission := mkCodeSubmission {
  sub_email : string;
  sub_confirmation_code : string
}.

Class Env := {
  (** the random source: the n-th UUID and the n-th salt it yields *)
  uuid4_draw : nat -> UUID;
  salt_draw : nat -> string;
  (** the default password hasher: the name of its algorithm and its
      digest of a salt and a password *)
  hasher_algorithm : string;
  hasher_digest : string -> string -> string;
  (** the signed text of a token *)
  str_token : AccessToken -> string;
  ACCESS_TOKEN_LIFETIME : Z;
  (** api_yamdb/settings.py *)
  EMAIL_ADMIN : string;
  (** api/serializers.py: field validation of the three serializers; the
      one of users also sees the table and the instance it is bound to *)
  SendCodeSerializer_validation : Data -> ErrorDetail + string;
  CheckConfirmationCodeSerializer_validation :
    Data -> ErrorDetail + CodeSubmission;
  UserSerializer_validation :
    list User.t -> User.t -> Data -> ErrorDetail + list (string * string);
  UserSerializer_representation : User.t -> list (string * string);
  (** validation of a new comment, and of the data of an update of a
      comment (partial or not), both to the validated text *)
  CommentSerializer_validation : Data -> ErrorDetail + string;
  CommentSerializer_update_validation :
    Comment.t -> bool -> Data -> ErrorDetail + string;
  CommentSerializer_representation : Comment.t -> list (string * string);
  (** api/permissions.py: the two checks of IsAuthorOrAdminOrModerator, on
      a request and on a request with the author of the object *)
  IsAuthorOrAdminOrModerator_has_permission : Request -> bool;
  IsAuthorOrAdminOrModerator_has_object_permission : Request -> Z -> bool;
  (** the database: the type of its double precision numbers and its
      aggregate AVG over the integers of a group that has some *)
  double : Type;
  database_avg : list Z -> double
}.

Section Views.
Context {env : Env}.

Definition SendCodeSerializer (d : Data) : Serializer string :=
  mkSerializer SendCodeSerializer_validation d None.

Definition CheckConfirmationCodeSerializer (d : Data)
  : Serializer CodeSubmission :=
  mkSerializer CheckConfirmationCodeSerializer_validation d None.

(** *** Random values *)

Definition uuid4 : M UUID :=
  fun w => (inr (uuid4_draw (draws w)), set_draws (S (draws w)) w).

Definition hasher_salt : M string :=
  fun w => (inr (salt_draw (draws w)), set_draws (S (draws w)) w).

(** *** django.contrib.auth.hashers *)

Definition hasher_encode (password salt : string) : Encoded :=
  mkEncoded hasher_algorithm salt (hasher_digest salt password).

(** [make_password(password, salt=None, hasher='default')]: the salt is
    drawn by the hasher; the password is hashed as its text. *)
Definition make_password (password : string) : M Encoded :=
  salt <- hasher_salt ;;
  ret (hasher_encode password salt).

Definition Encoded_eqb (a b : Encoded) : bool :=
  String.eqb (enc_algorithm a) (enc_algorithm b)
  && String.eqb (enc_salt a) (enc_salt b)
  && String.eqb (enc_hash a) (enc_hash b).

(** [check_password(password, encoded)].  On [None] the hasher cannot be
    identified and the call raises TypeError.  On a text whose algorithm
    is not the one of the hasher the answer is false; else the password
    is encoded again with the stored salt and the two encodings are
    compared.  No setter is passed, so nothing is written. *)
Definition check_password (password : string) (encoded : option Encoded)
  : Exn + bool :=
  match encoded with
  | None => inl TypeError
  | Some e =>
      if String.eqb (enc_algorithm e) hasher_algorithm
      then inr (Encoded_eqb e (hasher_encode password (enc_salt e)))
      else inr false
  end.

(** *** Query sets over the tables *)

Definition exists_ {A} (queryset : list A) : bool :=
  match queryset with [] => false | _ :: _ => true end.

(** [QuerySet.get] under [get_object_or_404]: no row is a 404, several
    rows are an error of their own. *)
Definition get_object_or_404 {A} (queryset : list A) (lookup : A -> bool)
  : M A :=
  match filter lookup queryset with
  | [] => raise Http404
  | [obj] => ret obj
  | _ :: _ :: _ => raise MultipleObjectsReturned
  end.

(** The keys a 64-bit integer column can be compared with. *)
Definition in_int64 (z : Z) : bool :=
  Z.leb (-9223372036854775808) z && Z.ltb z 9223372036854775808.

(** [get_object_or_404] on a lookup by integer keys taken from the path.
    The keys are bound as 64-bit integers: when one of them is outside
    that range, which no stored key is, binding it raises OverflowError
    where the lookup would have found no row. *)
Definition get_object_or_404_by_key {A} (queryset : list A)
  (lookup : A -> bool) (keys : list Z) : M A :=
  match filter lookup queryset with
  | [] =>
      if forallb in_int64 keys then raise Http404 else raise OverflowError
  | [obj] => ret obj
  | _ :: _ :: _ => raise MultipleObjectsReturned
  end.

Definition email_is (email : string) (u : User.t) : bool :=
  String.eqb (User.email u) email.

(** The key of a new row: above every key of the table.  The sequence
    of the database also stays above the keys of deleted rows; the views
    only rely on the key being one no row of the table has. *)
Definition next_pk (ids : list Z) : Z := 1 + fold_right Z.max 0 ids.

(** Modelled from the spec: [User.objects.create_user(email=email)] of
    the manager in api/models.py, which is not part of this development:
    a new row with the given email, a new primary key and no usable
    confirmation code is added to the table. *)
Definition create_user (email : string) : M User.t :=
  fun w =>
    let u := User.mk (next_pk (map User.id (users w))) "" email None
                     "user" "" in
    (inr u, set_users (users w ++ [u]) w).

(** [User.objects.filter(...).update(confirmation_code=...)]: every row
    the filter selects is written; the number of rows is returned. *)
Definition update_confirmation_code (lookup : User.t -> bool)
  (encoded : Encoded) : M nat :=
  fun w =>
    (inr (length (filter lookup (users w))),
     set_users
       (map (fun u => if lookup u
                      then User.set_confirmation_code (Some encoded) u
                      else u) (users w)) w).

(** *** django.core.mail *)

Definition send_mail (subject message from_email : string)
  (recipient_list : list string) : M unit :=
  modify (fun w =>
    set_outbox (outbox w ++ [mkEmail subject message from_email recipient_list]) w).

(** *** rest_framework_simplejwt.tokens *)

Definition AccessToken_for_user (u : User.t) : M AccessToken :=
  current_time <- gets now ;;
  j <- uuid4 ;;
  ret (mkAccessToken "access" (User.id u)
                     (current_time + ACCESS_TOKEN_LIFETIME) (hex j)).

(** *** The decorator api_view and the exception handler *)

Definition exception_handler (e : Exn) : Response :=
  match e with
  | Http404 => mkResponse (Dict [("detail", "Not found.")]) HTTP_404_NOT_FOUND
  | ValidationError detail => mkResponse (Errors detail) HTTP_400_BAD_REQUEST
  | NotAuthenticated =>
      mkResponse
        (Dict [("detail", "Authentication credentials were not provided.")])
        HTTP_401_UNAUTHORIZED
  | PermissionDenied =>
      mkResponse
        (Dict [("detail",
                "You do not have permission to perform this action.")])
        HTTP_403_FORBIDDEN
  | _ => mkResponse NoBody HTTP_500_INTERNAL_SERVER_ERROR
  end.

(** The decorator binds the view to the methods it is given and always
    allows OPTIONS, which the framework answers itself with a description
    of the view; every other method is not allowed. *)
Definition api_view (http_method_names : list Method)
  (view : Request -> M Response) (request : Request) (w : World)
  : Response * World :=
  if existsb (Method_eqb (method request)) http_method_names then
    match view request w with
    | (inr response, w') => (response, w')
    | (inl e, w') => (exception_handler e, w')
    end
  else if Method_eqb (method request) OPTIONS then
    (mkResponse Metadata HTTP_200_OK, w)
  else
    (mkResponse (Dict [("detail", "Method not allowed.")])
                HTTP_405_METHOD_NOT_ALLOWED, w).

(** ** send_confirmation_code (views.py, lines 116-148) *)

Definition send_confirmation_code (request : Request) : M Response :=
  let serializer := SendCodeSerializer (data request) in
  '(_, serializer) <- lift (is_valid serializer true) ;;
  email <- lift (validated_data serializer) ;;
  '(valid, serializer) <- lift (is_valid serializer false) ;;
  if valid then
    confirmation_code <- uuid4 ;;
    objects <- gets users ;;
    let user := exists_ (filter (email_is email) objects) in
    (if negb user then create_user email ;; ret tt else ret tt) ;;
    encoded <- make_password (str_uuid confirmation_code) ;;
    update_confirmation_code (email_is email) encoded ;;
    let mail_subject := "Confirmation code on Yamdb.ru" in
    let message := "Your confirmation code: " ++ str_uuid confirmation_code in
    send_mail mail_subject message ("Yamdb.ru <" ++ EMAIL_ADMIN ++ ">")
              [email] ;;
    ret (mkResponse (Text ("Code was sent to " ++ email ++ ", please check"))
                    HTTP_200_OK)
  else
    ret (mkResponse (errors_body (errors serializer)) HTTP_400_BAD_REQUEST).

(** ** get_jwt_token (views.py, lines 151-175) *)

Definition get_jwt_token (request : Request) : M Response :=
  let serializer := CheckConfirmationCodeSerializer (data request) in
  '(valid, serializer) <- lift (is_valid serializer false) ;;
  if valid then
    validated <- lift (validated_data serializer) ;;
    let email := sub_email validated in
    representation <- lift (serializer_data serializer) ;;
    let confirmation_code := sub_confirmation_code representation in
    objects <- gets users ;;
    user <- get_object_or_404 objects (email_is email) ;;
    matches <- lift (check_password confirmation_code
                                    (User.confirmation_code user)) ;;
    if matches then
      token <- AccessToken_for_user user ;;
      ret (mkResponse (Dict [("token", str_token token)]) HTTP_200_OK)
    else
      ret (mkResponse
             (Dict [("confirmation_code", "Wrong confirmation code")])
             HTTP_400_BAD_REQUEST)
  else
    ret (mkResponse (errors_body (errors serializer)) HTTP_400_BAD_REQUEST).

(** ** APIUser (views.py, lines 187-225) *)

(** [setattr(instance, attr, value)] on the text columns of a user. *)
Definition User_setattr (instance : User.t) (attr : string * string)
  : User.t :=
  let '(name, value) := attr in
  if String.eqb name "username" then
    User.mk (User.id instance) value (User.email instance)
            (User.confirmation_code instance) (User.role instance)
            (User.bio instance)
  else if String.eqb name "email" then
    User.mk (User.id instance) (User.username instance) value
            (User.confirmation_code instance) (User.role instance)
            (User.bio instance)
  else if String.eqb name "role" then
    User.mk (User.id instance) (User.username instance)
            (User.email instance) (User.confirmation_code instance) value
            (User.bio instance)
  else if String.eqb name "bio" then
    User.mk (User.id instance) (User.username instance)
            (User.email instance) (User.confirmation_code instance)
            (User.role instance) value
  else instance.

(** [Model.save()] of a row that has a primary key: the row with that
    key is replaced, or the row is added when the table has none. *)
Definition User_save (instance : User.t) : M unit :=
  modify (fun w =>
    let same_pk := fun u : User.t => Z.eqb (User.id u) (User.id instance) in
    if existsb same_pk (users w)
    then set_users (map (fun u => if same_pk u then instance else u)
                        (users w)) w
    else set_users (users w ++ [instance]) w).

(** [UserSerializer(user, data=request.data, partial=True)]; its
    validation reads the table as it is when the serializer is built. *)
Definition UserSerializer (objects : list User.t) (instance : User.t)
  (d : Data) : Serializer (list (string * string)) :=
  mkSerializer (UserSerializer_validation objects instance) d None.

(** [serializer.save()] of a model serializer bound to an instance: the
    validated attributes are set on the instance, which is then saved. *)
Definition UserSerializer_save (instance : User.t)
  (serializer : Serializer (list (string * string))) : M User.t :=
  attrs <- lift (validated_data serializer) ;;
  let instance := fold_left User_setattr attrs instance in
  User_save instance ;;
  ret instance.

Definition pk_is (pk : Z) (u : User.t) : bool := Z.eqb (User.id u) pk.

Definition APIUser_get (request : Request) : M Response :=
  match user request with
  | Some request_user =>              (* request.user.is_authenticated *)
      objects <- gets users ;;
      user <- get_object_or_404 objects (pk_is (User.id request_user)) ;;
      ret (mkResponse (Dict (UserSerializer_representation user))
                      HTTP_200_OK)
  | None =>
      ret (mkResponse (Text "You are not authenticated")
                      HTTP_401_UNAUTHORIZED)
  end.

Definition APIUser_patch (request : Request) : M Response :=
  match user request with
  | Some request_user =>              (* request.user.is_authenticated *)
      objects <- gets users ;;
      user <- get_object_or_404 objects (pk_is (User.id request_user)) ;;
      let serializer := UserSerializer objects user (data request) in
      '(valid, serializer) <- lift (is_valid serializer false) ;;
      if valid then
        instance <- UserSerializer_save user serializer ;;
        ret (mkResponse (Dict (UserSerializer_representation instance))
                        HTTP_200_OK)
      else
        ret (mkResponse (errors_body (errors serializer))
                        HTTP_400_BAD_REQUEST)
  | None =>
      ret (mkResponse (Text "You are not authenticated")
                      HTTP_401_UNAUTHORIZED)
  end.

End Views.

(** ** CommentViewSet (views.py, lines 51-71) *)

(** [self.kwargs]: the path parameters of the nested route. *)
Record Kwargs := mkKwargs { kw_title_id : Z; kw_review_id : Z }.

Definition of_title (title_id : Z) (r : Review.t) : bool :=
  Z.eqb (Review.title_id r) title_id.

Definition review_pk_is (pk : Z) (r : Review.t) : bool := Z.eqb (Review.id r) pk.

(** [review.comments.all()]: the rows of the reverse relation. *)
Definition review_comments (review : Review.t) (cs : list Comment.t)
  : list Comment.t :=
  filter (fun c => Z.eqb (Comment.review_id c) (Review.id review)) cs.

Definition CommentViewSet_get_queryset (kwargs : Kwargs)
  : M (list Comment.t) :=
  let title_id := kw_title_id kwargs in
  let review_id := kw_review_id kwargs in
  objects <- gets reviews ;;
  review <- get_object_or_404_by_key (filter (of_title title_id) objects)
                                     (review_pk_is review_id)
                                     [title_id; review_id] ;;
  all_comments <- gets comments ;;
  ret (review_comments review all_comments).

(** [serializer.save(author=..., review=...)] of a serializer without
    instance: a row is created from the validated text and the two
    keyword arguments. *)
Definition CommentSerializer_save (validated_text : string)
  (author : User.t) (review : Review.t) : M Comment.t :=
  fun w =>
    let c := Comment.mk (next_pk (map Comment.id (comments w)))
                        (Review.id review) (User.id author) validated_text in
    (inr c, set_comments (comments w ++ [c]) w).

Definition CommentViewSet_perform_create (kwargs : Kwargs)
  (request : Request) (validated_text : string) : M Comment.t :=
  let title_id := kw_title_id kwargs in
  let review_id := kw_review_id kwargs in
  objects <- gets reviews ;;
  review <- get_object_or_404_by_key (filter (of_title title_id) objects)
                                     (review_pk_is review_id)
                                     [title_id; review_id] ;;
  match user request with
  | Some author => CommentSerializer_save validated_text author review
  | None => raise ValueError     (* the anonymous user is not a row *)
  end.

(** ** ReviewViewSet (views.py, lines 74-89) *)

Definition set_reviews (rs : list Review.t) (w : World) : World :=
  mkWorld (users w) (titles w) rs (comments w) (outbox w) (now w) (draws w).

Definition title_pk_is (pk : Z) (t : Title.t) : bool := Z.eqb (Title.id t) pk.

(** [title.reviews.all()]: the rows of the reverse relation. *)
Definition title_reviews (title : Title.t) (rs : list Review.t)
  : list Review.t :=
  filter (of_title (Title.id title)) rs.

(** Of [self.kwargs] only [title_id] is read. *)
Definition ReviewViewSet_get_queryset (kwargs : Kwargs)
  : M (list Review.t) :=
  objects <- gets titles ;;
  title <- get_object_or_404_by_key objects
                                    (title_pk_is (kw_title_id kwargs))
                                    [kw_title_id kwargs] ;;
  all_reviews <- gets reviews ;;
  ret (title_reviews title all_reviews).

(** [serializer.save(author=..., title=...)] of a serializer without
    instance: a row is created from the validated text and score and the
    two keyword arguments. *)
Definition ReviewSerializer_save (validated_text : string)
  (validated_score : Z) (author : User.t) (title : Title.t) : M Review.t :=
  fun w =>
    let r := Review.mk (next_pk (map Review.id (reviews w)))
                       (Title.id title) (User.id author) validated_score
                       validated_text in
    (inr r, set_reviews (reviews w ++ [r]) w).

Definition ReviewViewSet_perform_create (kwargs : Kwargs)
  (request : Request) (validated_text : string) (validated_score : Z)
  : M Review.t :=
  objects <- gets titles ;;
  title <- get_object_or_404_by_key objects
                                    (title_pk_is (kw_title_id kwargs))
                                    [kw_title_id kwargs] ;;
  match user request with
  | Some author =>
      ReviewSerializer_save validated_text validated_score author title
  | None => raise ValueError     (* the anonymous user is not a row *)
  end.

(** ** TitleViewSet.get_serializer_class (views.py, lines 44-48) *)

Inductive TitleSerializerClass :=
| TitleCreateSerializer
| TitleListSerializer.

(** [self.action] is the name of the action, or [None] when the request
    is routed to no action. *)
Definition TitleViewSet_get_serializer_class (action : option string)
  : TitleSerializerClass :=
  match action with
  | Some name =>
      if existsb (String.eqb name) ["update"; "partial_update"; "create"]
      then TitleCreateSerializer
      else TitleListSerializer
  | None => TitleListSerializer
  end.

(** ** TitleViewSet.queryset (views.py, lines 36-38)

    [Title.objects.annotate(rating=Avg('reviews__score')).order_by('id')]
    as the query the object-relational mapper issues: the titles are
    joined to their reviews by a left outer join, the joined rows are
    grouped by title, the average of the scores that are not NULL is
    taken per group, and the groups are ordered by ascending id. *)

Definition joined_scores (t : Title.t) (rs : list Review.t)
  : list (option Z) :=
  match filter (of_title (Title.id t)) rs with
  | [] => [None]                      (* the title alone, score NULL *)
  | matched => map (fun r => Some (Review.score r)) matched
  end.

Definition left_outer_join (ts : list Title.t) (rs : list Review.t)
  : list (Title.t * option Z) :=
  flat_map (fun t => map (fun v => (t, v)) (joined_scores t rs)) ts.

Fixpoint add_to_group (t : Title.t) (v : option Z)
  (groups : list (Title.t * list (option Z)))
  : list (Title.t * list (option Z)) :=
  match groups with
  | [] => [(t, [v])]
  | (t', vs) :: rest =>
      if Z.eqb (Title.id t') (Title.id t) then (t', v :: vs) :: rest
      else (t', vs) :: add_to_group t v rest
  end.

Definition group_by_id (rows : list (Title.t * option Z))
  : list (Title.t * list (option Z)) :=
  fold_right (fun row groups => add_to_group (fst row) (snd row) groups)
             [] rows.

Fixpoint not_null (vs : list (option Z)) : list Z :=
  match vs with
  | [] => []
  | Some v :: rest => v :: not_null rest
  | None :: rest => not_null rest
  end.

Definition title_scores (t : Title.t) (rs : list Review.t) : list Z :=
  map Review.score (filter (of_title (Title.id t)) rs).

(** No group of [groups] has the key of [t]. *)
Definition other_keys (t : Title.t)
  (groups : list (Title.t * list (option Z))) : Prop :=
  forall g, In g groups -> Title.id (fst g) <> Title.id t.

Section TitleQuery.
Context {env : Env}.

(** The aggregate [Avg]: NULL over no value, else the double the
    database computes from the values of the group. *)
Definition Avg (vs : list (option Z)) : option double :=
  match not_null vs with
  | [] => None
  | xs => Some (database_avg xs)
  end.

Definition annotate_rating (groups : list (Title.t * list (option Z)))
  : list (Title.t * option double) :=
  map (fun g => (fst g, Avg (snd g))) groups.

Fixpoint insert_by_id (row : Title.t * option double)
  (sorted : list (Title.t * option double))
  : list (Title.t * option double) :=
  match sorted with
  | [] => [row]
  | row' :: rest =>
      if Z.leb (Title.id (fst row)) (Title.id (fst row'))
      then row :: row' :: rest
      else row' :: insert_by_id row rest
  end.

Definition order_by_id (rows : list (Title.t * option double))
  : list (Title.t * option double) :=
  fold_right insert_by_id [] rows.

Definition TitleViewSet_queryset (w : World)
  : list (Title.t * option double) :=
  order_by_id
    (annotate_rating (group_by_id (left_outer_join (titles w) (reviews w)))).

(** Ascending id, on the rows of the query set. *)
Definition by_id (a b : Title.t * option double) : Prop :=
  Title.id (fst a) <= Title.id (fst b).

End TitleQuery.

(** ** The view sets and the actions they route (views.py, lines 29-113
    and 178-184)

    A view set answers an action when one of its mixin bases defines the
    handler and the method the router binds the action to is among its
    [http_method_names]. *)

Inductive Mixin :=
| CreateModelMixin
| RetrieveModelMixin
| UpdateModelMixin
| DestroyModelMixin
| ListModelMixin.

Inductive Action :=
| list_action
| create_action
| retrieve_action
| update_action
| partial_update_action
| destroy_action.

Definition Action_eqb (a b : Action) : bool :=
  match a, b with
  | list_action, list_action | create_action, create_action
  | retrieve_action, retrieve_action | update_action, update_action
  | partial_update_action, partial_update_action
  | destroy_action, destroy_action => true
  | _, _ => false
  end.

Definition mixin_actions (m : Mixin) : list Action :=
  match m with
  | CreateModelMixin => [create_action]
  | RetrieveModelMixin => [retrieve_action]
  | UpdateModelMixin => [update_action; partial_update_action]
  | DestroyModelMixin => [destroy_action]
  | ListModelMixin => [list_action]
  end.

(** The name the router gives each action. *)
Definition action_name (a : Action) : string :=
  match a with
  | list_action => "list"
  | create_action => "create"
  | retrieve_action => "retrieve"
  | update_action => "update"
  | partial_update_action => "partial_update"
  | destroy_action => "destroy"
  end.

(** The method each action is bound to by the router. *)
Definition action_method (a : Action) : Method :=
  match a with
  | list_action => GET
  | create_action => POST
  | retrieve_action => GET
  | update_action => PUT
  | partial_update_action => PATCH
  | destroy_action => DELETE
  end.

Record ViewSet := mkViewSet {
  bases : list Mixin;
  http_method_names : list Method
}.

Definition default_http_method_names : list Method :=
  [GET; POST; PUT; PATCH; DELETE; HEAD; OPTIONS; TRACE].

Definition ModelViewSet : list Mixin :=
  [CreateModelMixin; RetrieveModelMixin; UpdateModelMixin;
   DestroyModelMixin; ListModelMixin].

Definition CreateDeleteListViewSet : list Mixin :=
  [CreateModelMixin; DestroyModelMixin; ListModelMixin].

Definition TitleViewSet : ViewSet :=
  mkViewSet ModelViewSet default_http_method_names.
Definition CommentViewSet : ViewSet :=
  mkViewSet ModelViewSet default_http_method_names.
Definition ReviewViewSet : ViewSet :=
  mkViewSet ModelViewSet default_http_method_names.
Definition CategoryViewSet : ViewSet :=
  mkViewSet CreateDeleteListViewSet [GET; POST; DELETE].
Definition GenreViewSet : ViewSet :=
  mkViewSet CreateDeleteListViewSet [GET; POST; DELETE].
Definition UserViewSet : ViewSet :=
  mkViewSet ModelViewSet default_http_method_names.

Definition supports (v : ViewSet) (a : Action) : bool :=
  existsb (fun m => existsb (Action_eqb a) (mixin_actions m)) (bases v)
  && existsb (Method_eqb (action_method a)) (http_method_names v).

Inductive Resource :=
| Titles | Categories | Genres | Reviews | Comments | Users.

Definition viewset_of (r : Resource) : ViewSet :=
  match r with
  | Titles => TitleViewSet
  | Categories => CategoryViewSet
  | Genres => GenreViewSet
  | Reviews => ReviewViewSet
  | Comments => CommentViewSet
  | Users => UserViewSet
  end.

Inductive Crud := Create | Read | Update | Delete.

(** The actions that carry out each of the four operations. *)
Definition crud_supported (v : ViewSet) (op : Crud) : bool :=
  match op with
  | Create => supports v create_action
  | Read => supports v retrieve_action || supports v list_action
  | Update => supports v update_action || supports v partial_update_action
  | Delete => supports v destroy_action
  end.

(** ** The requests of the comment view set (views.py, lines 51-71)

    The six actions a ModelViewSet answers, as the framework runs them
    around the two hooks above: the permission check first, then the
    handler of the action; an exception raised on the way becomes the
    response of the exception handler. *)

Definition comment_pk_is (pk : Z) (c : Comment.t) : bool :=
  Z.eqb (Comment.id c) pk.

Definition Comment_save (instance : Comment.t) : M unit :=
  modify (fun w =>
    set_comments (map (fun c => if comment_pk_is (Comment.id instance) c
                                then instance else c) (comments w)) w).

Definition Comment_delete (instance : Comment.t) : M unit :=
  modify (fun w =>
    set_comments (filter (fun c => negb (comment_pk_is (Comment.id instance) c))
                         (comments w)) w).

Section CommentRequests.
Context {env : Env}.

Definition CommentSerializer (d : Data) : Serializer string :=
  mkSerializer CommentSerializer_validation d None.

Definition CommentSerializer_for (instance : Comment.t) (partial : bool)
  (d : Data) : Serializer string :=
  mkSerializer (CommentSerializer_update_validation instance partial) d None.

(** [permission_denied]: 401 without an authenticated user, else 403. *)
Definition permission_denied {A} (request : Request) : M A :=
  if is_authenticated request then raise PermissionDenied
  else raise NotAuthenticated.

Definition check_permissions (request : Request) : M unit :=
  if IsAuthorOrAdminOrModerator_has_permission request then ret tt
  else permission_denied request.

Definition check_object_permissions (request : Request) (obj : Comment.t)
  : M unit :=
  if IsAuthorOrAdminOrModerator_has_object_permission request
       (Comment.author_id obj)
  then ret tt
  else permission_denied request.

(** [get_object]: the row of the query set with the key of the path. *)
Definition CommentViewSet_get_object (kwargs : Kwargs) (pk : Z)
  (request : Request) : M Comment.t :=
  queryset <- CommentViewSet_get_queryset kwargs ;;
  obj <- get_object_or_404_by_key queryset (comment_pk_is pk) [pk] ;;
  check_object_permissions request obj ;;
  ret obj.

Definition CommentViewSet_list (kwargs : Kwargs) : M Response :=
  queryset <- CommentViewSet_get_queryset kwargs ;;
  ret (mkResponse (Items (map CommentSerializer_representation queryset))
                  HTTP_200_OK).

Definition CommentViewSet_create (kwargs : Kwargs) (request : Request)
  : M Response :=
  let serializer := CommentSerializer (data request) in
  '(_, serializer) <- lift (is_valid serializer true) ;;
  validated_text <- lift (validated_data serializer) ;;
  instance <- CommentViewSet_perform_create kwargs request validated_text ;;
  ret (mkResponse (Dict (CommentSerializer_representation instance))
                  HTTP_201_CREATED).

Definition CommentViewSet_retrieve (kwargs : Kwargs) (pk : Z)
  (request : Request) : M Response :=
  instance <- CommentViewSet_get_object kwargs pk request ;;
  ret (mkResponse (Dict (CommentSerializer_representation instance))
                  HTTP_200_OK).

Definition CommentViewSet_update (partial : bool) (kwargs : Kwargs) (pk : Z)
  (request : Request) : M Response :=
  instance <- CommentViewSet_get_object kwargs pk request ;;
  let serializer := CommentSerializer_for instance partial (data request) in
  '(_, serializer) <- lift (is_valid serializer true) ;;
  validated_text <- lift (validated_data serializer) ;;
  let instance := Comment.mk (Comment.id instance)
                             (Comment.review_id instance)
                             (Comment.author_id instance) validated_text in
  Comment_save instance ;;
  ret (mkResponse (Dict (CommentSerializer_representation instance))
                  HTTP_200_OK).

Definition CommentViewSet_destroy (kwargs : Kwargs) (pk : Z)
  (request : Request) : M Response :=
  instance <- CommentViewSet_get_object kwargs pk request ;;
  Comment_delete instance ;;
  ret (mkResponse NoBody HTTP_204_NO_CONTENT).

(** A request routed to [action]; [pk] is read by the actions on one
    comment only. *)
Definition CommentViewSet_request (action : Action) (kwargs : Kwargs)
  (pk : Z) (request : Request) (w : World) : Response * World :=
  let handler :=
    check_permissions request ;;
    match action with
    | list_action => CommentViewSet_list kwargs
    | create_action => CommentViewSet_create kwargs request
    | retrieve_action => CommentViewSet_retrieve kwargs pk request
    | update_action => CommentViewSet_update false kwargs pk request
    | partial_update_action => CommentViewSet_update true kwargs pk request
    | destroy_action => CommentViewSet_destroy kwargs pk request
    end in
  match handler w with
  | (inr response, w') => (response, w')
  | (inl e, w') => (exception_handler e, w')
  end.

End CommentRequests.

(** ** Runs of the authentication endpoints *)

Section Runs.
Context {env : Env}.

Inductive Event :=
| Tick (seconds : Z)                (* time passes *)
| SendCode (request : Request)      (* a call of send_confirmation_code *)
| GetToken (request : Request).     (* a call of get_jwt_token *)

Definition step (w : World) (e : Event) : World :=
  match e with
  | Tick seconds => set_now (now w + seconds) w
  | SendCode request => snd (api_view [POST] send_confirmation_code request w)
  | GetToken request => snd (api_view [POST] get_jwt_token request w)
  end.

Definition run (trace : list Event) (w : World) : World :=
  fold_left step trace w.

(** A call of send_confirmation_code whose validated email is [email]. *)
Definition sends_code_to (email : string) (e : Event) : bool :=
  match e with
  | SendCode request =>
      match SendCodeSerializer_validation (data request) with
      | inr email' => String.eqb email' email
      | inl _ => false
      end
  | _ => false
  end.

End Runs.

(** ** The outcomes of the two authentication views *)

Section Outcomes.
Context {env : Env}.

(** The responses of get_jwt_token. *)
Definition token_response (u : User.t) (w : World) : Response :=
  mkResponse
    (Dict [("token",
            str_token (mkAccessToken "access" (User.id u)
                         (now w + ACCESS_TOKEN_LIFETIME)
                         (hex (uuid4_draw (draws w)))))])
    HTTP_200_OK.

Definition wrong_code_response : Response :=
  mkResponse (Dict [("confirmation_code", "Wrong confirmation code")])
             HTTP_400_BAD_REQUEST.

(** The world a successful call of send_confirmation_code leaves. *)
Definition users_after_send (email : string) (w : World) : list User.t :=
  let encoded :=
    hasher_encode (str_uuid (uuid4_draw (draws w)))
                  (salt_draw (S (draws w))) in
  let objects :=
    if exists_ (filter (email_is email) (users w)) then users w
    else (users w ++ [User.mk (next_pk (map User.id (users w))) "" email
                              None "user" ""])%list in
  map (fun u => if email_is email u
                then User.set_confirmation_code (Some encoded) u
                else u) objects.

Definition code_mail (email : string) (w : World) : EmailMessage :=
  mkEmail "Confirmation code on Yamdb.ru"
          ("Your confirmation code: " ++ str_uuid (uuid4_draw (draws w)))
          ("Yamdb.ru <" ++ EMAIL_ADMIN ++ ">") [email].

(** The update of the rows a filter selects, as [update_confirmation_code]
    writes them. *)
Definition write_code (email : string) (encoded : Encoded) (u : User.t)
  : User.t :=
  if email_is email u then User.set_confirmation_code (Some encoded) u else u.


End Outcomes.

(** ** A concrete environment and database, for running the views *)

Module Demo.

Fixpoint lookup (key : string) (d : Data) : option string :=
  match d with
  | [] => None
  | (k, v) :: rest => if String.eqb k key then Some v else lookup key rest
  end.

Fixpoint has_at (s : string) : bool :=
  match s with
  | EmptyString => false
  | String c rest => Ascii.eqb c "@"%char || has_at rest
  end.

Definition required (field : string) : ErrorDetail :=
  mkErrorDetail (field, ["This field is required."]) [].

Definition validate_email (d : Data) : ErrorDetail + string :=
  match lookup "email" d with
  | None => inl (required "email")
  | Some e =>
      if has_at e then inr e
      else inl (mkErrorDetail ("email", ["Enter a valid email address."]) [])
  end.

Definition validate_submission (d : Data) : ErrorDetail + CodeSubmission :=
  match validate_email d with
  | inl detail => inl detail
  | inr e =>
      match lookup "confirmation_code" d with
      | None => inl (required "confirmation_code")
      | Some c => inr (mkCodeSubmission e c)
      end
  end.

Definition validate_user (objects : list User.t) (instance : User.t)
  (d : Data) : ErrorDetail + list (string * string) :=
  match lookup "username" d with
  | Some "" =>
      inl (mkErrorDetail ("username", ["This field may not be blank."]) [])
  | _ =>
      inr (filter (fun kv => String.eqb (fst kv) "username"
                             || String.eqb (fst kv) "bio") d)
  end.

Definition represent_user (u : User.t) : list (string * string) :=
  [("username", User.username u); ("email", User.email u);
   ("role", User.role u); ("bio", User.bio u)].

Definition str_Z (z : Z) : string := NilZero.string_of_int (Z.to_int z).

Definition validate_comment (d : Data) : ErrorDetail + string :=
  match lookup "text" d with
  | None => inl (required "text")
  | Some t => inr t
  end.

Definition validate_comment_update (instance : Comment.t) (partial : bool)
  (d : Data) : ErrorDetail + string :=
  match lookup "text" d with
  | Some t => inr t
  | None => if partial then inr (Comment.text instance)
            else inl (required "text")
  end.

Definition represent_comment (c : Comment.t) : list (string * string) :=
  [("id", str_Z (Comment.id c)); ("author", str_Z (Comment.author_id c));
   ("text", Comment.text c)].

Definition safe_method (m : Method) : bool :=
  match m with
  | GET | HEAD | OPTIONS => true
  | _ => false
  end.

Definition staff (u : User.t) : bool :=
  String.eqb (User.role u) "admin" || String.eqb (User.role u) "moderator".

Definition has_permission (request : Request) : bool :=
  safe_method (method request) || is_authenticated request.

Definition has_object_permission (request : Request) (author_id : Z)
  : bool :=
  safe_method (method request)
  || match user request with
     | Some u => Z.eqb (User.id u) author_id || staff u
     | None => false
     end.

(** Double precision numbers, and the average as the quotient of the sum
    by the number of values. *)
Definition to_double (z : Z) : spec_float := binary_normalize 53 1024 z 0 false.

Definition double_avg (xs : list Z) : spec_float :=
  SFdiv 53 1024 (to_double (fold_right Z.add 0 xs))
        (to_double (Z.of_nat (length xs))).

Definition env : Env := {|
  uuid4_draw := fun n =>
    mkUUID (nth n ["16fd2706-8baf-433b-82eb-8c7fada847da";
                   "886313e1-3b8a-4372-9b90-0c9aee199e5d";
                   "6fa459ea-ee8a-4ca4-894e-db77e160355e"]
                  "3d813cbb-47fb-42ba-91df-831e1593ac29");
  salt_draw := fun n => nth n ["kQ3xv"; "Zb81c"; "m0Lw2"] "t7Hy4";
  hasher_algorithm := "pbkdf2_sha256";
  hasher_digest := fun salt password => salt ++ "$" ++ password;
  str_token := fun t => token_type t ++ "." ++ jti t;
  ACCESS_TOKEN_LIFETIME := 300;
  EMAIL_ADMIN := "admin@yamdb.ru";
  SendCodeSerializer_validation := validate_email;
  CheckConfirmationCodeSerializer_validation := validate_submission;
  UserSerializer_validation := validate_user;
  UserSerializer_representation := represent_user;
  CommentSerializer_validation := validate_comment;
  CommentSerializer_update_validation := validate_comment_update;
  CommentSerializer_representation := represent_comment;
  IsAuthorOrAdminOrModerator_has_permission := has_permission;
  IsAuthorOrAdminOrModerator_has_object_permission := has_object_permission;
  double := spec_float;
  database_avg := double_avg
|}.

(** Bob was never sent a code: his column holds the empty text. *)
Definition bob : User.t :=
  User.mk 1 "bob" "bob@yamdb.ru" (Some (mkEncoded "" "" "")) "user" "".


Definition world : World :=
  mkWorld
    [bob]
    [Title.mk 2 "Solaris" 1972; Title.mk 1 "Stalker" 1979;
     Title.mk 3 "Mirror" 1975]
    [Review.mk 1 1 1 9 "slow and great"; Review.mk 2 2 1 7 "long";
     Review.mk 3 1 1 10 "again"]
    [Comment.mk 1 1 1 "agreed"; Comment.mk 2 2 1 "not that long";
     Comment.mk 3 1 1 "twice"]
    [] 1000 0.

Definition send_request : Request :=
  mkRequest POST [("email", "alice@yamdb.ru")] None.

(** The code the first draw yields, which the mail carries. *)
Definition token_request : Request :=
  mkRequest POST [("email", "alice@yamdb.ru");
                  ("confirmation_code",
                   "16fd2706-8baf-433b-82eb-8c7fada847da")] None.

(** The row of alice once the code was sent to her. *)
Definition alice : User.t :=
  User.mk 2 "" "alice@yamdb.ru"
          (Some (mkEncoded "pbkdf2_sha256" "Zb81c"
                   "Zb81c$16fd2706-8baf-433b-82eb-8c7fada847da"))
          "user" "".

Definition alice_submission : CodeSubmission :=
  mkCodeSubmission "alice@yamdb.ru" "16fd2706-8baf-433b-82eb-8c7fada847da".

Definition after_send : World :=
  snd (send_confirmation_code (env := env) send_request world).

Definition after_exchange : World :=
  snd (get_jwt_token (env := env) token_request after_send).

(** A year passes, bob asks for a code, alice's code is tried with a
    wrong value, and another hour passes. *)
Definition later : list Event :=
  [Tick 31536000;
   SendCode (mkRequest POST [("email", "bob@yamdb.ru")] None);
   GetToken (mkRequest POST [("email", "alice@yamdb.ru");
                             ("confirmation_code", "0000")] None);
   Tick 3600].


Definition carol_request : Request :=
  mkRequest POST [("email", "carol@yamdb.ru");
                  ("confirmation_code", "0000")] None.


Definition after_second_send : World :=
  snd (send_confirmation_code (env := env) send_request after_send).

Definition review_request : Request :=
  mkRequest POST [("text", "better each time"); ("score", "8")] (Some bob).

(** The path parameters of the reviews of the title 2. *)
Definition review_kwargs : Kwargs := mkKwargs 2 0.

Definition patch_request : Request :=
  mkRequest PATCH [("bio", "projectionist")] (Some bob).

Definition comment_kwargs : Kwargs := mkKwargs 1 3.

Definition comment_request : Request :=
  mkRequest POST [("text", "third time")] (Some bob).






(** The first review, of the title 1. *)
Definition first_review_kwargs : Kwargs := mkKwargs 1 1.

(** No review has the key 99. *)
Definition missing_kwargs : Kwargs := mkKwargs 1 99.

(** A comment without text, by bob. *)
Definition empty_comment_request : Request :=
  mkRequest POST [] (Some bob).

Definition list_request : Request := mkRequest GET [] None.

(** A key no 64-bit column holds. *)
Definition huge_kwargs : Kwargs := mkKwargs 9223372036854775808 0.

End Demo.

(** * Properties *)

(** ** Runs of the demo *)

Example demo_send_creates_alice :
  map User.email (users Demo.after_send) = ["bob@yamdb.ru"; "alice@yamdb.ru"]
  /\ map mail_message (outbox Demo.after_send)
     = ["Your confirmation code: 16fd2706-8baf-433b-82eb-8c7fada847da"].
Proof. split; reflexivity. Qed.

Example demo_exchange :
  fst (get_jwt_token (env := Demo.env) Demo.token_request Demo.after_send)
  = inr (mkResponse (Dict [("token", "access.6fa459ea-ee8a-4ca4-894e-db77e160355e")]) 200).
Proof. reflexivity. Qed.

(** ** The two authentication views, case by case *)

Section Authentication.
Context {env : Env}.

Lemma get_jwt_token_eq (request : Request) (w : World) :
  get_jwt_token request w =
  match CheckConfirmationCodeSerializer_validation (data request) with
  | inl detail => (inr (mkResponse (Errors detail) HTTP_400_BAD_REQUEST), w)
  | inr sub =>
      match filter (email_is (sub_email sub)) (users w) with
      | [] => (inl Http404, w)
      | [u] =>
          match check_password (sub_confirmation_code sub)
                               (User.confirmation_code u) with
          | inl e => (inl e, w)
          | inr true => (inr (token_response u w), set_draws (S (draws w)) w)
          | inr false => (inr wrong_code_response, w)
          end
      | _ :: _ :: _ => (inl MultipleObjectsReturned, w)
      end
  end.
Proof.
  unfold get_jwt_token, bind, lift, is_valid, CheckConfirmationCodeSerializer.
  cbn.
  destruct (CheckConfirmationCodeSerializer_validation (data request))
    as [detail | sub]; cbn; [reflexivity |].
  unfold get_object_or_404, gets.
  destruct (filter (email_is (sub_email sub)) (users w)) as [| u [| u' l]];
    cbn; try reflexivity.
  destruct (check_password _ _) as [e | []]; reflexivity.
Qed.

Lemma send_confirmation_code_eq (request : Request) (w : World) :
  send_confirmation_code request w =
  match SendCodeSerializer_validation (data request) with
  | inl detail => (inl (ValidationError detail), w)
  | inr email =>
      (inr (mkResponse (Text ("Code was sent to " ++ email ++ ", please check"))
                       HTTP_200_OK),
       mkWorld (users_after_send email w) (titles w) (reviews w) (comments w)
               (outbox w ++ [code_mail email w])%list (now w)
               (S (S (draws w))))
  end.
Proof.
  unfold send_confirmation_code, bind, lift, is_valid, SendCodeSerializer.
  cbn.
  destruct (SendCodeSerializer_validation (data request)) as [detail | email];
    cbn; [reflexivity |].
  unfold users_after_send, code_mail.
  destruct (exists_ (filter (email_is email) (users w))); reflexivity.
Qed.

(** On data the serializer rejects the answer is 400 with its errors, and
    nothing is written. *)
Lemma get_jwt_token_invalid (request : Request) (w : World)
  (detail : ErrorDetail) :
  CheckConfirmationCodeSerializer_validation (data request) = inl detail ->
  get_jwt_token request w
  = (inr (mkResponse (Errors detail) HTTP_400_BAD_REQUEST), w).
Proof. intros H. rewrite get_jwt_token_eq, H. reflexivity. Qed.

(** get_jwt_token never writes to the table of users. *)
Lemma get_jwt_token_users (request : Request) (w : World) :
  users (snd (get_jwt_token request w)) = users w.
Proof.
  rewrite get_jwt_token_eq.
  destruct (CheckConfirmationCodeSerializer_validation (data request))
    as [detail | sub]; [reflexivity |].
  destruct (filter (email_is (sub_email sub)) (users w)) as [| u [| u' l]];
    try reflexivity.
  destruct (check_password _ _) as [e | []]; reflexivity.
Qed.

(** What check_password answers on a stored text: true exactly when the
    text names the algorithm of the hasher and its digest is the one of
    the password under the stored salt. *)
Lemma check_password_Some (password : string) (e : Encoded) :
  check_password password (Some e)
  = inr (String.eqb (enc_algorithm e) hasher_algorithm
         && String.eqb (hasher_digest (enc_salt e) password) (enc_hash e)).
Proof.
  unfold check_password, Encoded_eqb, hasher_encode. cbn.
  destruct (String.eqb (enc_algorithm e) hasher_algorithm); [| reflexivity].
  rewrite String.eqb_refl. cbn. rewrite String.eqb_sym. reflexivity.
Qed.

Lemma check_password_true (password : string) (e : Encoded) :
  check_password password (Some e) = inr true <->
  enc_algorithm e = hasher_algorithm /\
  hasher_digest (enc_salt e) password = enc_hash e.
Proof.
  rewrite check_password_Some. split.
  - intros H. inversion H as [H']. apply andb_true_iff in H'.
    rewrite !String.eqb_eq in H'. exact H'.
  - intros [Halg Hdigest]. f_equal. apply andb_true_iff.
    rewrite !String.eqb_eq. split; assumption.
Qed.


(** C1 (as amended): get_jwt_token keeps the stored confirmation code, so
    after a successful exchange a second call with the same data succeeds
    again with status 200. *)
Theorem get_jwt_token_code_reusable (request : Request) (w w1 : World)
  (r1 : Response) :
  get_jwt_token request w = (inr r1, w1) ->
  status r1 = HTTP_200_OK ->
  users w1 = users w /\
  exists r2 w2,
    get_jwt_token request w1 = (inr r2, w2) /\
    status r2 = HTTP_200_OK /\
    users w2 = users w.
Proof.
  intros Hcall Hstatus.
  assert (Husers : users w1 = users w).
  { pose proof (get_jwt_token_users request w) as H.
    rewrite Hcall in H. exact H. }
  split; [exact Husers |].
  rewrite get_jwt_token_eq in Hcall.
  rewrite get_jwt_token_eq, Husers.
  destruct (CheckConfirmationCodeSerializer_validation (data request))
    as [detail | sub].
  - inversion Hcall; subst. discriminate Hstatus.
  - destruct (filter (email_is (sub_email sub)) (users w)) as [| u [| u' l]];
      try discriminate Hcall.
    destruct (check_password _ _) as [e | []].
    + discriminate Hcall.
    + do 2 eexists. split; [reflexivity |].
      split; [reflexivity | exact Husers].
    + inversion Hcall; subst. discriminate Hstatus.
Qed.

(** C9: in send_confirmation_code the call is_valid(raise_exception=True)
    raises on data the serializer rejects; when it returns, the second
    is_valid reads the cached outcome and returns true, so every response
    the function returns has status 200 and the trailing 400 response is
    never returned. *)
Theorem send_confirmation_code_400_unreachable (request : Request)
  (w : World) :
  (forall detail,
     SendCodeSerializer_validation (data request) = inl detail ->
     is_valid (SendCodeSerializer (data request)) true
     = inl (ValidationError detail) /\
     send_confirmation_code request w = (inl (ValidationError detail), w)) /\
  (forall valid serializer,
     is_valid (SendCodeSerializer (data request)) true
     = inr (valid, serializer) ->
     is_valid serializer false = inr (true, serializer)) /\
  (forall response w',
     send_confirmation_code request w = (inr response, w') ->
     status response = HTTP_200_OK /\
     status response <> HTTP_400_BAD_REQUEST).
Proof.
  split; [| split].
  - intros detail H. rewrite send_confirmation_code_eq.
    unfold is_valid, SendCodeSerializer; cbn. rewrite H. split; reflexivity.
  - intros valid serializer.
    unfold is_valid at 1. unfold SendCodeSerializer; cbn.
    destruct (SendCodeSerializer_validation (data request))
      as [detail | email]; [discriminate |].
    intros H; inversion H; subst. reflexivity.
  - intros response w'. rewrite send_confirmation_code_eq.
    destruct (SendCodeSerializer_validation (data request))
      as [detail | email]; [discriminate |].
    intros H; inversion H; subst. cbn. split; [reflexivity | discriminate].
Qed.

End Authentication.


(** C1, as stated, fails: once the code was sent to alice, the exchange
    of that code for a token succeeds, and the same call made again on
    the world the first one left succeeds as well. *)
Lemma confirmation_code_accepted_twice :
  exists r1 r2 w2,
    get_jwt_token (env := Demo.env) Demo.token_request Demo.after_send
    = (inr r1, Demo.after_exchange) /\
    status r1 = HTTP_200_OK /\
    get_jwt_token (env := Demo.env) Demo.token_request Demo.after_exchange
    = (inr r2, w2) /\
    status r2 = HTTP_200_OK.
Proof.
  exists (token_response (env := Demo.env) Demo.alice Demo.after_send),
         (token_response (env := Demo.env) Demo.alice Demo.after_exchange),
         (set_draws 4 Demo.after_exchange).
  split; [vm_compute; reflexivity |]. split; [reflexivity |].
  split; [vm_compute; reflexivity | reflexivity].
Qed.

Lemma get_jwt_token_code_reusable_witness :
  status (token_response (env := Demo.env) Demo.alice Demo.after_send)
  = HTTP_200_OK /\
  users Demo.after_exchange = users Demo.after_send.
Proof.
  split; [reflexivity |].
  exact (proj1 (get_jwt_token_code_reusable (env := Demo.env)
                  Demo.token_request Demo.after_send Demo.after_exchange
                  (token_response (env := Demo.env) Demo.alice
                     Demo.after_send)
                  eq_refl eq_refl)).
Defined.

Lemma send_confirmation_code_400_unreachable_witness :
  status (mkResponse
            (Text "Code was sent to alice@yamdb.ru, please check")
            HTTP_200_OK) <> HTTP_400_BAD_REQUEST.
Proof.
  exact (proj2 (proj2 (proj2 (send_confirmation_code_400_unreachable
                                (env := Demo.env) Demo.send_request
                                Demo.world))
                  (mkResponse
                     (Text "Code was sent to alice@yamdb.ru, please check")
                     HTTP_200_OK)
                  Demo.after_send eq_refl)).
Defined.

(** ** The table of users under send_confirmation_code *)

Section UserTable.
Context {env : Env}.

Lemma email_is_spec (email : string) (u : User.t) :
  email_is email u = true <-> User.email u = email.
Proof. unfold email_is. apply String.eqb_eq. Qed.

Lemma email_is_false (email : string) (u : User.t) :
  email_is email u = false <-> User.email u <> email.
Proof. unfold email_is. apply String.eqb_neq. Qed.

Lemma next_pk_above (ids : list Z) (x : Z) : In x ids -> x < next_pk ids.
Proof.
  unfold next_pk. induction ids as [| y ids IH]; cbn [fold_right In];
    [tauto |].
  intros [-> | Hin]; [lia |]. specialize (IH Hin). lia.
Qed.

Lemma next_pk_fresh (ids : list Z) : ~ In (next_pk ids) ids.
Proof. intros Hin. apply next_pk_above in Hin. lia. Qed.

Lemma write_code_id email encoded u :
  User.id (write_code email encoded u) = User.id u.
Proof. unfold write_code. destruct (email_is email u); reflexivity. Qed.

Lemma write_code_email email encoded u :
  User.email (write_code email encoded u) = User.email u.
Proof. unfold write_code. destruct (email_is email u); reflexivity. Qed.

Lemma write_code_other email encoded u :
  User.email u <> email -> write_code email encoded u = u.
Proof.
  intros H. unfold write_code.
  apply email_is_false in H. rewrite H. reflexivity.
Qed.

Lemma write_code_stored email encoded u :
  User.email u = email ->
  User.confirmation_code (write_code email encoded u) = Some encoded.
Proof.
  intros H. unfold write_code.
  apply email_is_spec in H. rewrite H. reflexivity.
Qed.

Lemma email_is_write_code email other encoded u :
  email_is other (write_code email encoded u) = email_is other u.
Proof. unfold email_is. rewrite write_code_email. reflexivity. Qed.

Lemma filter_write_code_same email encoded (l : list User.t) :
  filter (email_is email) (map (write_code email encoded) l)
  = map (User.set_confirmation_code (Some encoded))
        (filter (email_is email) l).
Proof.
  induction l as [| u l IH]; cbn [map filter]; [reflexivity |].
  rewrite email_is_write_code.
  destruct (email_is email u) eqn:E; [| exact IH].
  cbn [map]. f_equal; [| exact IH].
  unfold write_code. rewrite E. reflexivity.
Qed.

Lemma filter_write_code_other email other encoded (l : list User.t) :
  other <> email ->
  filter (email_is other) (map (write_code email encoded) l)
  = filter (email_is other) l.
Proof.
  intros Hneq.
  induction l as [| u l IH]; cbn [map filter]; [reflexivity |].
  rewrite email_is_write_code.
  destruct (email_is other u) eqn:E; [| exact IH].
  f_equal; [| exact IH].
  apply write_code_other. apply email_is_spec in E. congruence.
Qed.

Lemma map_write_code_none email encoded (l : list User.t) :
  filter (email_is email) l = [] -> map (write_code email encoded) l = l.
Proof.
  induction l as [| u l IH]; cbn [map filter]; [reflexivity |].
  destruct (email_is email u) eqn:E; [discriminate |].
  intros H. f_equal; [| exact (IH H)].
  unfold write_code. rewrite E. reflexivity.
Qed.

Lemma users_after_send_eq (email : string) (w : World) :
  users_after_send email w
  = map (write_code email
           (hasher_encode (str_uuid (uuid4_draw (draws w)))
                          (salt_draw (S (draws w)))))
        (if exists_ (filter (email_is email) (users w)) then users w
         else (users w ++ [User.mk (next_pk (map User.id (users w))) ""
                                   email None "user" ""])%list).
Proof. reflexivity. Qed.

(** Rows under another email are not touched by a call for [email]. *)
Lemma users_after_send_other (email other : string) (w : World) :
  other <> email ->
  filter (email_is other) (users_after_send email w)
  = filter (email_is other) (users w).
Proof.
  intros Hneq. rewrite users_after_send_eq.
  rewrite (filter_write_code_other _ _ _ _ Hneq).
  destruct (exists_ (filter (email_is email) (users w))); [reflexivity |].
  rewrite filter_app. cbn [filter].
  assert (E : email_is other
                (User.mk (next_pk (map User.id (users w))) "" email None
                         "user" "") = false).
  { apply email_is_false. cbn. congruence. }
  rewrite E. apply app_nil_r.
Qed.

Lemma exists_filter_nil {A} (l : list A) : exists_ l = false <-> l = [].
Proof. destruct l; cbn; split; intros H; try reflexivity; discriminate. Qed.

(** C3: on a valid email send_confirmation_code answers 200; when no user
    has that email one new row with it is added, when some user has it no
    row is added; in both cases the table then has a user with that email,
    every such user stores the hash of the new code, and the other rows
    are the ones that were there. *)
Theorem send_confirmation_code_exists_or_create (request : Request)
  (w : World) (email : string) :
  SendCodeSerializer_validation (data request) = inr email ->
  exists response w' encoded,
    send_confirmation_code request w = (inr response, w') /\
    status response = HTTP_200_OK /\
    encoded = hasher_encode (str_uuid (uuid4_draw (draws w)))
                            (salt_draw (S (draws w))) /\
    (filter (email_is email) (users w) = [] ->
       exists u,
         users w' = (users w ++ [u])%list /\
         User.email u = email /\
         ~ In (User.id u) (map User.id (users w))) /\
    (filter (email_is email) (users w) <> [] ->
       map User.id (users w') = map User.id (users w) /\
       map User.email (users w') = map User.email (users w)) /\
    (exists u, In u (users w') /\ User.email u = email) /\
    (forall u, In u (users w') -> User.email u = email ->
               User.confirmation_code u = Some encoded) /\
    (forall u, In u (users w') -> User.email u <> email -> In u (users w)).
Proof.
  intros Hvalid. rewrite send_confirmation_code_eq, Hvalid.
  do 3 eexists. split; [reflexivity |]. split; [reflexivity |].
  split; [reflexivity |]. cbn [users].
  rewrite users_after_send_eq.
  set (encoded := hasher_encode _ _).
  set (new := User.mk _ _ _ _ _ _).
  assert (Hnew : User.email new = email) by reflexivity.
  split; [| split; [| split; [| split]]].
  - intros Hnone.
    rewrite (proj2 (exists_filter_nil _) Hnone).
    exists (write_code email encoded new).
    rewrite map_app, (map_write_code_none _ _ _ Hnone). cbn [map].
    split; [reflexivity |]. split.
    + rewrite write_code_email. exact Hnew.
    + rewrite write_code_id. apply next_pk_fresh.
  - intros Hsome.
    destruct (exists_ (filter (email_is email) (users w))) eqn:E.
    + rewrite !map_map. split; apply map_ext; intros u.
      * apply write_code_id.
      * apply write_code_email.
    + apply exists_filter_nil in E. contradiction.
  - destruct (filter (email_is email) (users w)) as [| x l] eqn:E.
    + exists (write_code email encoded new). cbn [exists_]. split.
      * apply in_map. apply in_or_app. right. left. reflexivity.
      * rewrite write_code_email. exact Hnew.
    + exists (write_code email encoded x). cbn [exists_].
      assert (Hx : In x (filter (email_is email) (users w))).
      { rewrite E. left. reflexivity. }
      apply filter_In in Hx. destruct Hx as [Hin Hmail]. split.
      * apply in_map. exact Hin.
      * rewrite write_code_email. apply email_is_spec. exact Hmail.
  - intros u Hin Hmail.
    apply in_map_iff in Hin. destruct Hin as (x & <- & _).
    rewrite write_code_email in Hmail.
    apply write_code_stored. exact Hmail.
  - intros u Hin Hmail.
    apply in_map_iff in Hin. destruct Hin as (x & <- & Hin).
    rewrite write_code_email in Hmail.
    rewrite (write_code_other _ _ _ Hmail).
    destruct (exists_ (filter (email_is email) (users w))); [exact Hin |].
    apply in_app_or in Hin. destruct Hin as [Hin | [<- | []]];
      [exact Hin | contradiction].
Qed.

(** After a call for [email] on a table where at most one row has that
    email, exactly one row has it, and it stores the hash of the code
    that was drawn. *)
Lemma users_after_send_one (email : string) (w : World) :
  (length (filter (email_is email) (users w)) <= 1)%nat ->
  exists u,
    filter (email_is email) (users_after_send email w) = [u] /\
    User.email u = email /\
    User.confirmation_code u
    = Some (hasher_encode (str_uuid (uuid4_draw (draws w)))
                          (salt_draw (S (draws w)))).
Proof.
  intros Hone. rewrite users_after_send_eq, filter_write_code_same.
  destruct (filter (email_is email) (users w)) as [| x [| y l]] eqn:E.
  - cbn [exists_]. rewrite filter_app, E. cbn [filter app].
    assert (Hnew : email_is email
                     (User.mk (next_pk (map User.id (users w))) "" email
                              None "user" "") = true).
    { apply email_is_spec. reflexivity. }
    rewrite Hnew. eexists. split; [reflexivity |]. split; reflexivity.
  - cbn [exists_]. rewrite E. eexists. split; [reflexivity |].
    split; [| reflexivity].
    assert (Hx : In x (filter (email_is email) (users w))).
    { rewrite E. left. reflexivity. }
    apply filter_In in Hx. apply email_is_spec. exact (proj2 Hx).
  - cbn in Hone. lia.
Qed.

(** The stored hash of a code is matched by that code. *)
Lemma check_password_make (password salt : string) :
  check_password password (Some (hasher_encode password salt)) = inr true.
Proof.
  apply check_password_true. split; reflexivity.
Qed.


End UserTable.

Lemma send_confirmation_code_exists_or_create_witness :
  SendCodeSerializer_validation (Env := Demo.env) (data Demo.send_request)
  = inr "alice@yamdb.ru" /\
  exists response w',
    send_confirmation_code (env := Demo.env) Demo.send_request Demo.world
    = (inr response, w') /\
    status response = HTTP_200_OK.
Proof.
  split; [reflexivity |].
  destruct (send_confirmation_code_exists_or_create (env := Demo.env)
              Demo.send_request Demo.world "alice@yamdb.ru" eq_refl)
    as (response & w' & encoded & Hcall & Hstatus & _).
  exists response, w'. split; [exact Hcall | exact Hstatus].
Defined.


(** ** Runs: what the verification of a code depends on *)

Section RunProperties.
Context {env : Env}.

(** The status get_jwt_token answers with is a function of the request
    and of the rows stored under the submitted email. *)
Lemma get_jwt_token_status_rows (request : Request) (w1 w2 : World)
  (submitted : CodeSubmission) :
  CheckConfirmationCodeSerializer_validation (data request)
  = inr submitted ->
  filter (email_is (sub_email submitted)) (users w1)
  = filter (email_is (sub_email submitted)) (users w2) ->
  status (fst (api_view [POST] get_jwt_token request w1))
  = status (fst (api_view [POST] get_jwt_token request w2)).
Proof.
  intros Hvalid Hrows. unfold api_view.
  destruct (existsb _ _); [| destruct (Method_eqb _ _); reflexivity].
  rewrite !get_jwt_token_eq, Hvalid, Hrows.
  destruct (filter _ (users w2)) as [| u [| u' l]]; try reflexivity.
  destruct (check_password _ _) as [e | []]; reflexivity.
Qed.

Lemma step_keeps_rows (email : string) (e : Event) (w : World) :
  sends_code_to email e = false ->
  filter (email_is email) (users (step w e))
  = filter (email_is email) (users w).
Proof.
  destruct e as [seconds | request | request]; cbn [step sends_code_to].
  - reflexivity.
  - intros Hother. unfold api_view.
    destruct (existsb _ _); [| destruct (Method_eqb _ _); reflexivity].
    rewrite send_confirmation_code_eq.
    destruct (SendCodeSerializer_validation (data request))
      as [detail | email']; [reflexivity |].
    cbn [fst snd users]. apply users_after_send_other.
    apply String.eqb_neq in Hother. congruence.
  - intros _. unfold api_view.
    destruct (existsb _ _); [| destruct (Method_eqb _ _); reflexivity].
    pose proof (get_jwt_token_users request w) as H.
    destruct (get_jwt_token request w) as [[e | response] w'];
      cbn [fst snd] in *; rewrite H; reflexivity.
Qed.

Lemma run_keeps_rows (email : string) (trace : list Event) (w : World) :
  (forall e, In e trace -> sends_code_to email e = false) ->
  filter (email_is email) (users (run trace w))
  = filter (email_is email) (users w).
Proof.
  unfold run. revert w.
  induction trace as [| e trace IH]; intros w Hother; cbn [fold_left];
    [reflexivity |].
  rewrite IH.
  - apply step_keeps_rows. apply Hother. left. reflexivity.
  - intros e' Hin. apply Hother. right. exact Hin.
Qed.

(** C6: a code that get_jwt_token accepts is accepted after any run of
    clock ticks, calls of get_jwt_token and calls of
    send_confirmation_code for other emails: the status of the answer is
    the same before and after the run, whatever time has passed. *)
Theorem confirmation_code_no_expiry (trace : list Event)
  (request : Request) (w : World) (submitted : CodeSubmission) :
  CheckConfirmationCodeSerializer_validation (data request)
  = inr submitted ->
  (forall e, In e trace -> sends_code_to (sub_email submitted) e = false) ->
  status (fst (api_view [POST] get_jwt_token request w)) = HTTP_200_OK ->
  status (fst (api_view [POST] get_jwt_token request (run trace w)))
  = HTTP_200_OK.
Proof.
  intros Hvalid Hother Haccepted.
  rewrite <- Haccepted.
  apply (get_jwt_token_status_rows request _ _ submitted Hvalid).
  apply run_keeps_rows. exact Hother.
Qed.

End RunProperties.

Lemma confirmation_code_no_expiry_witness :
  status (fst (api_view [POST] (get_jwt_token (env := Demo.env))
                 Demo.token_request
                 (run (env := Demo.env) Demo.later Demo.after_send)))
  = HTTP_200_OK.
Proof.
  apply (confirmation_code_no_expiry (env := Demo.env) Demo.later
           Demo.token_request Demo.after_send Demo.alice_submission).
  - reflexivity.
  - intros e Hin. cbn in Hin.
    destruct Hin as [<- | [<- | [<- | [<- | []]]]]; reflexivity.
  - reflexivity.
Defined.

(** ** The /me endpoints *)

Section Me.
Context {env : Env}.

Lemma User_setattr_id (u : User.t) (attr : string * string) :
  User.id (User_setattr u attr) = User.id u.
Proof.
  destruct attr as [name value]. unfold User_setattr.
  repeat (destruct (String.eqb name _); [reflexivity |]). reflexivity.
Qed.

Lemma fold_User_setattr_id (attrs : list (string * string)) (u : User.t) :
  User.id (fold_left User_setattr attrs u) = User.id u.
Proof.
  revert u. induction attrs as [| attr attrs IH]; intros u; cbn [fold_left];
    [reflexivity |].
  rewrite IH. apply User_setattr_id.
Qed.

Lemma filter_replace {A} (p : A -> bool) (new : A) (l : list A) :
  p new = true ->
  filter p (map (fun x => if p x then new else x) l)
  = map (fun _ => new) (filter p l).
Proof.
  intros Hnew. induction l as [| x l IH]; cbn [map filter]; [reflexivity |].
  destruct (p x) eqn:E.
  - rewrite Hnew. cbn [map]. f_equal. exact IH.
  - rewrite E. exact IH.
Qed.

Lemma filter_existsb {A} (p : A -> bool) (l : list A) (x : A) :
  filter p l = [x] -> existsb p l = true.
Proof.
  intros H. apply existsb_exists. exists x. apply filter_In.
  rewrite H. left. reflexivity.
Qed.

(** C7: without an authenticated user both /me handlers answer 401 and
    write nothing; for an authenticated user, whose row the table holds,
    patch answers 200 with the representation of the updated row, which
    it has stored, when the serializer accepts the data, and 400 with the
    serializer's errors, writing nothing, when it does not. *)
Theorem APIUser_me_statuses (request : Request) (w : World) :
  (user request = None ->
   APIUser_get request w
   = (inr (mkResponse (Text "You are not authenticated")
                      HTTP_401_UNAUTHORIZED), w) /\
   APIUser_patch request w
   = (inr (mkResponse (Text "You are not authenticated")
                      HTTP_401_UNAUTHORIZED), w)) /\
  (forall request_user u,
     user request = Some request_user ->
     filter (pk_is (User.id request_user)) (users w) = [u] ->
     (forall attrs,
        UserSerializer_validation (users w) u (data request) = inr attrs ->
        exists w',
          APIUser_patch request w
          = (inr (mkResponse
                    (Dict (UserSerializer_representation
                             (fold_left User_setattr attrs u)))
                    HTTP_200_OK), w') /\
          filter (pk_is (User.id request_user)) (users w')
          = [fold_left User_setattr attrs u]) /\
     (forall detail,
        UserSerializer_validation (users w) u (data request) = inl detail ->
        APIUser_patch request w
        = (inr (mkResponse (Errors detail) HTTP_400_BAD_REQUEST), w))).
Proof.
  split.
  - intros Hanon. unfold APIUser_get, APIUser_patch. rewrite Hanon.
    split; reflexivity.
  - intros request_user u Hauth Hrow.
    assert (Hid : User.id u = User.id request_user).
    { assert (Hin : In u (filter (pk_is (User.id request_user)) (users w))).
      { rewrite Hrow. left. reflexivity. }
      apply filter_In in Hin. destruct Hin as [_ Hpk].
      unfold pk_is in Hpk. apply Z.eqb_eq. exact Hpk. }
    assert (Hpatch :
      APIUser_patch request w
      = match UserSerializer_validation (users w) u (data request) with
        | inl detail =>
            (inr (mkResponse (Errors detail) HTTP_400_BAD_REQUEST), w)
        | inr attrs =>
            (inr (mkResponse
                    (Dict (UserSerializer_representation
                             (fold_left User_setattr attrs u)))
                    HTTP_200_OK),
             snd (User_save (fold_left User_setattr attrs u) w))
        end).
    { unfold APIUser_patch. rewrite Hauth.
      unfold bind at 1. unfold gets at 1. unfold bind at 1.
      unfold get_object_or_404. rewrite Hrow.
      unfold ret at 1, bind at 1, lift, is_valid, UserSerializer. cbn.
      destruct (UserSerializer_validation (users w) u (data request));
        reflexivity. }
    rewrite Hpatch. split.
    + intros attrs Hvalid. rewrite Hvalid.
      eexists. split; [reflexivity |].
      set (updated := fold_left User_setattr attrs u).
      assert (Hupdated : User.id updated = User.id request_user).
      { unfold updated. rewrite fold_User_setattr_id. exact Hid. }
      assert (Hsave :
        users (snd (User_save updated w))
        = map (fun x => if pk_is (User.id request_user) x
                        then updated else x) (users w)).
      { unfold User_save, modify. cbn [snd]. rewrite Hupdated.
        change (fun u0 : User.t => Z.eqb (User.id u0) (User.id request_user))
          with (pk_is (User.id request_user)).
        rewrite (filter_existsb _ _ _ Hrow). reflexivity. }
      rewrite Hsave, (filter_replace (pk_is (User.id request_user))), Hrow;
        [reflexivity |].
      unfold pk_is. rewrite Hupdated. apply Z.eqb_refl.
    + intros detail Hinvalid. rewrite Hinvalid. reflexivity.
Qed.

End Me.

Lemma APIUser_me_statuses_witness :
  user Demo.patch_request = Some Demo.bob /\
  filter (pk_is (User.id Demo.bob)) (users Demo.world) = [Demo.bob] /\
  exists w',
    APIUser_patch (env := Demo.env) Demo.patch_request Demo.world
    = (inr (mkResponse
              (Dict [("username", "bob"); ("email", "bob@yamdb.ru");
                     ("role", "user"); ("bio", "projectionist")])
              HTTP_200_OK), w').
Proof.
  split; [reflexivity |]. split; [reflexivity |].
  destruct (proj1 (proj2 (APIUser_me_statuses (env := Demo.env)
                            Demo.patch_request Demo.world)
                     Demo.bob Demo.bob eq_refl eq_refl)
              [("bio", "projectionist")] eq_refl) as (w' & Hcall & _).
  exists w'. exact Hcall.
Defined.

(** ** Comments of a review *)

Section CommentsOfReview.

Lemma no_review_no_match (title_id review_id : Z) (l : list Review.t) :
  (forall r, In r l ->
             ~ (Review.id r = review_id /\ Review.title_id r = title_id)) ->
  filter (review_pk_is review_id) (filter (of_title title_id) l) = [].
Proof.
  intros Hnone.
  induction l as [| x l IH]; cbn [filter]; [reflexivity |].
  assert (IH' : filter (review_pk_is review_id)
                       (filter (of_title title_id) l) = []).
  { apply IH. intros r Hin. apply Hnone. right. exact Hin. }
  destruct (of_title title_id x) eqn:Et; [| exact IH'].
  cbn [filter].
  destruct (review_pk_is review_id x) eqn:Ep; [| exact IH'].
  exfalso. apply (Hnone x); [left; reflexivity |].
  unfold of_title in Et. unfold review_pk_is in Ep.
  split; apply Z.eqb_eq; assumption.
Qed.

Lemma pk_absent_no_match (p : Review.t -> bool) (pk : Z)
  (l : list Review.t) :
  ~ In pk (map Review.id l) ->
  filter (review_pk_is pk) (filter p l) = [].
Proof.
  induction l as [| x l IH]; cbn [filter map]; [reflexivity |].
  intros Hnot.
  assert (IH' : filter (review_pk_is pk) (filter p l) = []).
  { apply IH. intros Hin. apply Hnot. right. exact Hin. }
  destruct (p x); [| exact IH'].
  cbn [filter].
  destruct (review_pk_is pk x) eqn:Ep; [| exact IH'].
  exfalso. apply Hnot. left.
  unfold review_pk_is in Ep. apply Z.eqb_eq. exact Ep.
Qed.

(** A primary key selects its row, and only it. *)
Lemma pk_selects_row (p : Review.t -> bool) (review : Review.t)
  (l : list Review.t) :
  NoDup (map Review.id l) ->
  In review l ->
  p review = true ->
  filter (review_pk_is (Review.id review)) (filter p l) = [review].
Proof.
  induction l as [| x l IH]; cbn [map In]; [tauto |].
  intros Hnodup Hin Hp.
  inversion Hnodup as [| pk ids Hfresh Hrest]; subst.
  destruct Hin as [-> | Hin].
  - cbn [filter]. rewrite Hp. cbn [filter].
    unfold review_pk_is at 1. rewrite Z.eqb_refl.
    f_equal. apply pk_absent_no_match. exact Hfresh.
  - assert (Hneq : review_pk_is (Review.id review) x = false).
    { unfold review_pk_is. apply Z.eqb_neq. intros Heq.
      apply Hfresh. rewrite Heq. apply in_map. exact Hin. }
    cbn [filter].
    destruct (p x); cbn [filter]; rewrite ?Hneq; apply IH; assumption.
Qed.

End CommentsOfReview.

(** ** Requests to the comment view set *)

Section CommentRequestProperties.
Context {env : Env}.

Lemma keys_in_range (title_id review_id : Z) :
  in_int64 title_id = true ->
  in_int64 review_id = true ->
  forallb in_int64 [title_id; review_id] = true.
Proof. intros Ht Hr. cbn [forallb]. rewrite Ht, Hr. reflexivity. Qed.

(** Without a review of the title under the key of the path, both hooks
    raise Http404 when the keys are in range. *)
Lemma CommentViewSet_hooks_404 (kwargs : Kwargs) (request : Request)
  (validated_text : string) (w : World) :
  in_int64 (kw_title_id kwargs) = true ->
  in_int64 (kw_review_id kwargs) = true ->
  (forall r, In r (reviews w) ->
             ~ (Review.id r = kw_review_id kwargs /\
                Review.title_id r = kw_title_id kwargs)) ->
  CommentViewSet_get_queryset kwargs w = (inl Http404, w) /\
  CommentViewSet_perform_create kwargs request validated_text w
  = (inl Http404, w).
Proof.
  intros Ht Hr Hnone.
  unfold CommentViewSet_get_queryset, CommentViewSet_perform_create.
  unfold bind, gets, get_object_or_404_by_key.
  rewrite (no_review_no_match _ _ _ Hnone), (keys_in_range _ _ Ht Hr).
  split; reflexivity.
Qed.

(** With the review of the title under the key of the path, get_queryset
    returns its comments and perform_create adds a comment to it. *)
Lemma CommentViewSet_hooks_found (kwargs : Kwargs) (request : Request)
  (validated_text : string) (w : World) (review : Review.t) :
  NoDup (map Review.id (reviews w)) ->
  In review (reviews w) ->
  Review.id review = kw_review_id kwargs ->
  Review.title_id review = kw_title_id kwargs ->
  CommentViewSet_get_queryset kwargs w
  = (inr (review_comments review (comments w)), w) /\
  forall author,
    user request = Some author ->
    CommentViewSet_perform_create kwargs request validated_text w
    = CommentSerializer_save validated_text author review w.
Proof.
  intros Hnodup Hin Hid Htitle.
  unfold CommentViewSet_get_queryset, CommentViewSet_perform_create.
  unfold bind, gets, get_object_or_404_by_key.
  rewrite <- Hid, <- Htitle.
  rewrite pk_selects_row;
    [| exact Hnodup | exact Hin | unfold of_title; apply Z.eqb_refl].
  split; [reflexivity |].
  intros author Hauthor. rewrite Hauthor. reflexivity.
Qed.

(** The create action validates the data, then runs perform_create. *)
Lemma CommentViewSet_create_eq (kwargs : Kwargs) (request : Request)
  (w : World) :
  CommentViewSet_create kwargs request w
  = match CommentSerializer_validation (data request) with
    | inl detail => (inl (ValidationError detail), w)
    | inr text =>
        match CommentViewSet_perform_create kwargs request text w with
        | (inl e, w') => (inl e, w')
        | (inr c, w') =>
            (inr (mkResponse (Dict (CommentSerializer_representation c))
                             HTTP_201_CREATED), w')
        end
    end.
Proof.
  unfold CommentViewSet_create, bind, lift, is_valid, CommentSerializer.
  cbn -[CommentViewSet_perform_create].
  destruct (CommentSerializer_validation (data request)) as [detail | text];
    reflexivity.
Qed.

(** A request that passes the permission check is answered by the handler
    of its action. *)
Lemma CommentViewSet_request_permitted (action : Action) (kwargs : Kwargs)
  (pk : Z) (request : Request) (w : World) :
  IsAuthorOrAdminOrModerator_has_permission request = true ->
  CommentViewSet_request action kwargs pk request w
  = match
      match action with
      | list_action => CommentViewSet_list kwargs
      | create_action => CommentViewSet_create kwargs request
      | retrieve_action => CommentViewSet_retrieve kwargs pk request
      | update_action => CommentViewSet_update false kwargs pk request
      | partial_update_action => CommentViewSet_update true kwargs pk request
      | destroy_action => CommentViewSet_destroy kwargs pk request
      end w
    with
    | (inr response, w') => (response, w')
    | (inl e, w') => (exception_handler e, w')
    end.
Proof.
  intros Hallowed. unfold CommentViewSet_request, check_permissions.
  rewrite Hallowed. reflexivity.
Qed.

(** C10 (as amended): for a request that passes the permission check and
    is routed to one of the six actions of the comment view set, with
    title_id and review_id in the range of the keys: a create whose data
    the serializer rejects is answered 400 with the errors, before any
    lookup; apart from that, when no review with id review_id belongs to
    the title with id title_id the request is answered 404 and writes
    nothing; otherwise listing answers 200 with exactly the comments of
    that review, and a create whose data the serializer accepts answers
    201 and adds one comment with the requesting user as author and that
    review as parent. *)
Theorem CommentViewSet_requests_scoped (action : Action) (kwargs : Kwargs)
  (pk : Z) (request : Request) (w : World) :
  IsAuthorOrAdminOrModerator_has_permission request = true ->
  in_int64 (kw_title_id kwargs) = true ->
  in_int64 (kw_review_id kwargs) = true ->
  (action = create_action ->
   forall detail,
     CommentSerializer_validation (data request) = inl detail ->
     CommentViewSet_request action kwargs pk request w
     = (mkResponse (Errors detail) HTTP_400_BAD_REQUEST, w)) /\
  ((forall r, In r (reviews w) ->
              ~ (Review.id r = kw_review_id kwargs /\
                 Review.title_id r = kw_title_id kwargs)) ->
   (action = create_action ->
    exists text, CommentSerializer_validation (data request) = inr text) ->
   CommentViewSet_request action kwargs pk request w
   = (mkResponse (Dict [("detail", "Not found.")]) HTTP_404_NOT_FOUND, w)) /\
  (forall review,
     NoDup (map Review.id (reviews w)) ->
     In review (reviews w) ->
     Review.id review = kw_review_id kwargs ->
     Review.title_id review = kw_title_id kwargs ->
     (action = list_action ->
      CommentViewSet_request action kwargs pk request w
      = (mkResponse
           (Items (map CommentSerializer_representation
                     (filter (fun c => Z.eqb (Comment.review_id c)
                                             (Review.id review))
                             (comments w))))
           HTTP_200_OK, w)) /\
     (action = create_action ->
      forall text author,
        CommentSerializer_validation (data request) = inr text ->
        user request = Some author ->
        exists c,
          CommentViewSet_request action kwargs pk request w
          = (mkResponse (Dict (CommentSerializer_representation c))
                        HTTP_201_CREATED,
             set_comments (comments w ++ [c]) w) /\
          Comment.author_id c = User.id author /\
          Comment.review_id c = Review.id review /\
          Comment.text c = text)).
Proof.
  intros Hallowed Ht Hr.
  rewrite (CommentViewSet_request_permitted _ _ _ _ _ Hallowed).
  split; [| split].
  - intros -> detail Hinvalid. cbv beta iota.
    rewrite CommentViewSet_create_eq, Hinvalid. reflexivity.
  - intros Hnone Hcreate.
    destruct (CommentViewSet_hooks_404 kwargs request "" w Ht Hr Hnone)
      as [Hqueryset _].
    destruct action.
    + unfold CommentViewSet_list, bind. rewrite Hqueryset. reflexivity.
    + destruct (Hcreate eq_refl) as [text Hvalid].
      destruct (CommentViewSet_hooks_404 kwargs request text w Ht Hr Hnone)
        as [_ Hperform].
      rewrite CommentViewSet_create_eq, Hvalid, Hperform. reflexivity.
    + unfold CommentViewSet_retrieve, CommentViewSet_get_object, bind.
      rewrite Hqueryset. reflexivity.
    + unfold CommentViewSet_update, CommentViewSet_get_object, bind.
      rewrite Hqueryset. reflexivity.
    + unfold CommentViewSet_update, CommentViewSet_get_object, bind.
      rewrite Hqueryset. reflexivity.
    + unfold CommentViewSet_destroy, CommentViewSet_get_object, bind.
      rewrite Hqueryset. reflexivity.
  - intros review Hnodup Hin Hid Htitle. split.
    + intros ->. cbv beta iota.
      destruct (CommentViewSet_hooks_found kwargs request "" w review
                  Hnodup Hin Hid Htitle) as [Hqueryset _].
      unfold CommentViewSet_list, bind. rewrite Hqueryset. reflexivity.
    + intros -> text author Hvalid Hauthor. cbv beta iota.
      destruct (CommentViewSet_hooks_found kwargs request text w review
                  Hnodup Hin Hid Htitle) as [_ Hperform].
      rewrite CommentViewSet_create_eq, Hvalid, (Hperform author Hauthor).
      eexists. split; [reflexivity |]. repeat split; reflexivity.
Qed.

End CommentRequestProperties.

(** C10, as stated, fails: no review 99 belongs to the title 1, yet the
    request that creates a comment without text under them is answered
    400 with the errors of the serializer, not 404. *)
Lemma comment_without_text_answered_400 :
  (forall r, In r (reviews Demo.world) ->
             ~ (Review.id r = kw_review_id Demo.missing_kwargs /\
                Review.title_id r = kw_title_id Demo.missing_kwargs)) /\
  CommentViewSet_request (env := Demo.env) create_action Demo.missing_kwargs
    0 Demo.empty_comment_request Demo.world
  = (mkResponse (Errors (Demo.required "text")) HTTP_400_BAD_REQUEST,
     Demo.world) /\
  HTTP_400_BAD_REQUEST <> HTTP_404_NOT_FOUND.
Proof.
  split; [| split; [reflexivity | discriminate]].
  intros r Hin [Hid _]. cbn in Hin.
  destruct Hin as [<- | [<- | [<- | []]]]; discriminate Hid.
Qed.

Lemma CommentViewSet_requests_scoped_witness :
  NoDup (map Review.id (reviews Demo.world)) /\
  CommentViewSet_request (env := Demo.env) list_action
    Demo.first_review_kwargs 0 Demo.list_request Demo.world
  = (mkResponse (Items [[("id", "1"); ("author", "1"); ("text", "agreed")];
                        [("id", "3"); ("author", "1"); ("text", "twice")]])
                HTTP_200_OK, Demo.world) /\
  CommentViewSet_request (env := Demo.env) list_action Demo.missing_kwargs 0
    Demo.list_request Demo.world
  = (mkResponse (Dict [("detail", "Not found.")]) HTTP_404_NOT_FOUND,
     Demo.world).
Proof.
  assert (Hnodup : NoDup (map Review.id (reviews Demo.world))).
  { cbn. repeat constructor; cbn; intuition discriminate. }
  split; [exact Hnodup |]. split.
  - exact (proj1 (proj2 (proj2 (CommentViewSet_requests_scoped
                                  (env := Demo.env)
                                  list_action Demo.first_review_kwargs 0
                                  Demo.list_request Demo.world
                                  eq_refl eq_refl eq_refl))
                    (Review.mk 1 1 1 9 "slow and great") Hnodup
                    (or_introl eq_refl) eq_refl eq_refl) eq_refl).
  - refine (proj1 (proj2 (CommentViewSet_requests_scoped (env := Demo.env)
                            list_action Demo.missing_kwargs 0
                            Demo.list_request Demo.world
                            eq_refl eq_refl eq_refl))
              _ _).
    + intros r Hin [Hid _]. cbn in Hin.
      destruct Hin as [<- | [<- | [<- | []]]]; discriminate Hid.
    + intros H. discriminate H.
Defined.

(** ** The rows of the query set of titles *)

Section Rating.
Context {env : Env}.

Lemma not_null_Some (f : Review.t -> Z) (l : list Review.t) :
  not_null (map (fun r => Some (f r)) l) = map f l.
Proof.
  induction l as [| r l IH]; cbn [map not_null]; [reflexivity |].
  f_equal. exact IH.
Qed.

Lemma not_null_joined_scores (t : Title.t) (rs : list Review.t) :
  not_null (joined_scores t rs) = title_scores t rs.
Proof.
  unfold joined_scores, title_scores.
  destruct (filter (of_title (Title.id t)) rs) as [| r l]; [reflexivity |].
  apply not_null_Some.
Qed.

(** The rating of a title, from the scores of its reviews. *)
Lemma Avg_joined_scores (t : Title.t) (rs : list Review.t) :
  Avg (joined_scores t rs)
  = match title_scores t rs with
    | [] => None
    | _ :: _ => Some (database_avg (title_scores t rs))
    end.
Proof.
  unfold Avg. rewrite not_null_joined_scores.
  destruct (title_scores t rs); reflexivity.
Qed.

Lemma joined_scores_not_nil (t : Title.t) (rs : list Review.t) :
  joined_scores t rs <> [].
Proof.
  unfold joined_scores.
  destruct (filter (of_title (Title.id t)) rs); discriminate.
Qed.

(** *** Grouping *)

Lemma add_to_group_new t v groups :
  other_keys t groups -> add_to_group t v groups = (groups ++ [(t, [v])])%list.
Proof.
  induction groups as [| [t' vs] groups IH]; intros Hother;
    cbn [add_to_group app]; [reflexivity |].
  assert (Hneq : Z.eqb (Title.id t') (Title.id t) = false).
  { apply Z.eqb_neq. apply (Hother (t', vs)). left. reflexivity. }
  rewrite Hneq. f_equal. apply IH.
  intros g Hin. apply Hother. right. exact Hin.
Qed.

Lemma add_to_group_last t v vs groups :
  other_keys t groups ->
  add_to_group t v (groups ++ [(t, vs)]) = (groups ++ [(t, v :: vs)])%list.
Proof.
  induction groups as [| [t' vs'] groups IH]; intros Hother;
    cbn [add_to_group app].
  - rewrite Z.eqb_refl. reflexivity.
  - assert (Hneq : Z.eqb (Title.id t') (Title.id t) = false).
    { apply Z.eqb_neq. apply (Hother (t', vs')). left. reflexivity. }
    rewrite Hneq. f_equal. apply IH.
    intros g Hin. apply Hother. right. exact Hin.
Qed.

Lemma group_rows_of_title t vs groups :
  other_keys t groups ->
  vs <> [] ->
  fold_right (fun row gs => add_to_group (fst row) (snd row) gs) groups
             (map (fun v => (t, v)) vs)
  = (groups ++ [(t, vs)])%list.
Proof.
  intros Hother. induction vs as [| v vs IH]; [congruence |].
  intros _. cbn [map fold_right fst snd].
  destruct vs as [| v' vs].
  - cbn [map fold_right]. apply add_to_group_new. exact Hother.
  - rewrite IH by discriminate. apply add_to_group_last. exact Hother.
Qed.

Lemma left_outer_join_cons t ts rs :
  left_outer_join (t :: ts) rs
  = (map (fun v => (t, v)) (joined_scores t rs) ++ left_outer_join ts rs)%list.
Proof. reflexivity. Qed.

Lemma group_by_id_app rows rows' :
  group_by_id (rows ++ rows')
  = fold_right (fun row gs => add_to_group (fst row) (snd row) gs)
               (group_by_id rows') rows.
Proof. unfold group_by_id. apply fold_right_app. Qed.

Lemma group_by_id_join (ts : list Title.t) (rs : list Review.t) :
  NoDup (map Title.id ts) ->
  group_by_id (left_outer_join ts rs)
  = rev (map (fun t => (t, joined_scores t rs)) ts).
Proof.
  induction ts as [| t ts IH]; intros Hnodup; [reflexivity |].
  inversion Hnodup as [| pk ids Hfresh Hrest]; subst.
  rewrite left_outer_join_cons, group_by_id_app, (IH Hrest).
  cbn [map rev].
  apply group_rows_of_title; [| apply joined_scores_not_nil].
  intros g Hin Heq. apply Hfresh.
  apply in_rev in Hin. apply in_map_iff in Hin.
  destruct Hin as (t' & <- & Hin). cbn [fst] in Heq.
  rewrite <- Heq. apply in_map. exact Hin.
Qed.

(** *** Ordering *)

Lemma insert_by_id_perm row l : Permutation (insert_by_id row l) (row :: l).
Proof.
  induction l as [| row' l IH]; cbn [insert_by_id]; [apply Permutation_refl |].
  destruct (Z.leb _ _); [apply Permutation_refl |].
  apply perm_trans with (row' :: row :: l);
    [apply perm_skip; exact IH | apply perm_swap].
Qed.

Lemma order_by_id_perm l : Permutation (order_by_id l) l.
Proof.
  induction l as [| row l IH]; cbn; [apply perm_nil |].
  apply perm_trans with (row :: order_by_id l);
    [apply insert_by_id_perm | apply perm_skip; exact IH].
Qed.

Lemma insert_by_id_HdRel a row l :
  by_id a row -> HdRel by_id a l -> HdRel by_id a (insert_by_id row l).
Proof.
  intros Hrow Hhd. destruct l as [| row' l]; cbn [insert_by_id].
  - constructor. exact Hrow.
  - destruct (Z.leb _ _); constructor; [exact Hrow |].
    inversion Hhd; assumption.
Qed.

Lemma insert_by_id_sorted row l :
  Sorted by_id l -> Sorted by_id (insert_by_id row l).
Proof.
  induction l as [| row' l IH]; intros Hsorted; cbn [insert_by_id].
  - repeat constructor.
  - inversion Hsorted as [| ? ? Hrest Hhd]; subst.
    destruct (Z.leb (Title.id (fst row)) (Title.id (fst row'))) eqn:E.
    + constructor; [exact Hsorted |]. constructor.
      apply Z.leb_le. exact E.
    + constructor; [apply IH; exact Hrest |].
      apply insert_by_id_HdRel; [| exact Hhd].
      apply Z.leb_gt in E. unfold by_id. lia.
Qed.

Lemma order_by_id_sorted l : Sorted by_id (order_by_id l).
Proof.
  induction l as [| row l IH]; cbn; [constructor |].
  apply insert_by_id_sorted. exact IH.
Qed.

(** The query set before it is ordered: one row per title, in the
    reverse order of the table. *)
Lemma annotated_rows (w : World) :
  NoDup (map Title.id (titles w)) ->
  annotate_rating (group_by_id (left_outer_join (titles w) (reviews w)))
  = rev (map (fun t => (t, Avg (joined_scores t (reviews w)))) (titles w)).
Proof.
  intros Hnodup. rewrite (group_by_id_join _ _ Hnodup).
  unfold annotate_rating. rewrite map_rev, map_map. reflexivity.
Qed.

Lemma in_queryset (w : World) (t : Title.t) (rating : option double) :
  NoDup (map Title.id (titles w)) ->
  In (t, rating) (TitleViewSet_queryset w) ->
  In t (titles w) /\
  rating = match title_scores t (reviews w) with
           | [] => None
           | _ :: _ => Some (database_avg (title_scores t (reviews w)))
           end.
Proof.
  intros Hnodup Hin. unfold TitleViewSet_queryset in Hin.
  apply (Permutation_in _ (order_by_id_perm _)) in Hin.
  rewrite (annotated_rows w Hnodup) in Hin.
  apply in_rev in Hin. apply in_map_iff in Hin.
  destruct Hin as (t' & Heq & Hin). inversion Heq; subst.
  split; [exact Hin | apply Avg_joined_scores].
Qed.

End Rating.

Example demo_ratings :
  TitleViewSet_queryset (env := Demo.env) Demo.world
  = [(Title.mk 1 "Stalker" 1979,
      Some (S754_finite false 5348024557502464 (-49)));
     (Title.mk 2 "Solaris" 1972,
      Some (S754_finite false 7881299347898368 (-50)));
     (Title.mk 3 "Mirror" 1975, None)].
Proof. vm_compute. reflexivity. Qed.

(** ** The operations of the six resources *)

(** C5, as stated, fails: not every resource supports every one of the
    four operations, since the categories cannot be updated. *)
Lemma categories_without_update :
  ~ (forall (r : Resource) (op : Crud),
       crud_supported (viewset_of r) op = true).
Proof. intros H. specialize (H Categories Update). discriminate H. Qed.

(** C5 (as amended): each of the six resources supports create, list and
    delete; titles, reviews, comments and users also support retrieve and
    update, categories and genres support neither. *)
Theorem crud_by_resource (r : Resource) :
  crud_supported (viewset_of r) Create = true /\
  crud_supported (viewset_of r) Read = true /\
  crud_supported (viewset_of r) Delete = true /\
  supports (viewset_of r) list_action = true /\
  crud_supported (viewset_of r) Update
  = match r with
    | Categories | Genres => false
    | Titles | Reviews | Comments | Users => true
    end /\
  supports (viewset_of r) retrieve_action
  = match r with
    | Categories | Genres => false
    | Titles | Reviews | Comments | Users => true
    end.
Proof. destruct r; repeat split; reflexivity. Qed.

(** ** Keys of the table of users *)

Section UserKeys.
Context {env : Env}.

Lemma NoDup_snoc {A} (l : list A) (x : A) :
  NoDup l -> ~ In x l -> NoDup (l ++ [x]).
Proof.
  intros Hl Hx.
  apply (Permutation_NoDup (Permutation_cons_append l x)).
  constructor; assumption.
Qed.

Lemma no_row_no_email (email : string) (l : list User.t) :
  filter (email_is email) l = [] -> ~ In email (map User.email l).
Proof.
  intros Hnone Hin. apply in_map_iff in Hin.
  destruct Hin as (u & Hmail & Hin).
  assert (Hu : In u (filter (email_is email) l)).
  { apply filter_In. split; [exact Hin |]. apply email_is_spec. exact Hmail. }
  rewrite Hnone in Hu. exact Hu.
Qed.


Lemma users_after_send_ids (email : string) (w : World) :
  NoDup (map User.id (users w)) ->
  NoDup (map User.id (users_after_send email w)).
Proof.
  intros Hnodup. rewrite users_after_send_eq, map_map.
  rewrite (map_ext _ User.id) by (intros u; apply write_code_id).
  destruct (exists_ (filter (email_is email) (users w))); [exact Hnodup |].
  rewrite map_app. cbn [map User.id].
  apply NoDup_snoc; [exact Hnodup | apply next_pk_fresh].
Qed.

Lemma users_after_send_emails (email : string) (w : World) :
  NoDup (map User.email (users w)) ->
  NoDup (map User.email (users_after_send email w)).
Proof.
  intros Hnodup. rewrite users_after_send_eq, map_map.
  rewrite (map_ext _ User.email) by (intros u; apply write_code_email).
  destruct (exists_ (filter (email_is email) (users w))) eqn:E;
    [exact Hnodup |].
  rewrite map_app. cbn [map User.email].
  apply NoDup_snoc; [exact Hnodup |].
  apply no_row_no_email. apply exists_filter_nil. exact E.
Qed.

(** X1: send_confirmation_code keeps the primary keys of the users
    distinct and keeps their emails distinct: the row it may add has a
    new key and an email no row had. *)
Theorem send_confirmation_code_keeps_keys (request : Request) (w : World) :
  (NoDup (map User.id (users w)) ->
   NoDup (map User.id (users (snd (send_confirmation_code request w))))) /\
  (NoDup (map User.email (users w)) ->
   NoDup (map User.email (users (snd (send_confirmation_code request w))))).
Proof.
  rewrite send_confirmation_code_eq.
  destruct (SendCodeSerializer_validation (data request))
    as [detail | email]; cbn [snd users].
  - split; intros H; exact H.
  - split; [apply users_after_send_ids | apply users_after_send_emails].
Qed.








End UserKeys.

Lemma send_confirmation_code_keeps_keys_witness :
  NoDup (map User.id (users Demo.world)) /\
  NoDup (map User.id (users Demo.after_send)).
Proof.
  assert (Hnodup : NoDup (map User.id (users Demo.world))).
  { cbn. repeat constructor; cbn; intuition discriminate. }
  split; [exact Hnodup |].
  exact (proj1 (send_confirmation_code_keeps_keys (env := Demo.env)
                  Demo.send_request Demo.world) Hnodup).
Defined.


(** ** Edges of the authentication views *)

Section AuthenticationEdges.
Context {env : Env}.

Lemma Method_eqb_POST (m : Method) : Method_eqb m POST = true <-> m = POST.
Proof. destruct m; cbn; split; intros H; try reflexivity; discriminate. Qed.

Lemma allowed_POST (m : Method) :
  existsb (Method_eqb m) [POST] = true <-> m = POST.
Proof. cbn [existsb]. rewrite orb_false_r. apply Method_eqb_POST. Qed.

Lemma no_email_no_row (email : string) (l : list User.t) :
  (forall u, In u l -> User.email u <> email) ->
  filter (email_is email) l = [].
Proof.
  intros Hnone. induction l as [| u l IH]; cbn [filter]; [reflexivity |].
  assert (E : email_is email u = false).
  { apply email_is_false. apply Hnone. left. reflexivity. }
  rewrite E. apply IH. intros x Hin. apply Hnone. right. exact Hin.
Qed.

(** X3: when no user has the submitted email, get_jwt_token raises
    Http404 and writes nothing; a POST is answered with status 404. *)
Theorem get_jwt_token_unknown_email (request : Request) (w : World)
  (submitted : CodeSubmission) :
  CheckConfirmationCodeSerializer_validation (data request)
  = inr submitted ->
  (forall u, In u (users w) -> User.email u <> sub_email submitted) ->
  get_jwt_token request w = (inl Http404, w) /\
  (method request = POST ->
   api_view [POST] get_jwt_token request w
   = (mkResponse (Dict [("detail", "Not found.")]) HTTP_404_NOT_FOUND, w)).
Proof.
  intros Hvalid Hnone.
  assert (Hcall : get_jwt_token request w = (inl Http404, w)).
  { rewrite get_jwt_token_eq, Hvalid, (no_email_no_row _ _ Hnone).
    reflexivity. }
  split; [exact Hcall |].
  intros Hpost. unfold api_view.
  rewrite (proj2 (allowed_POST _) Hpost), Hcall. reflexivity.
Qed.


(** X5: a second call of send_confirmation_code for the same email
    replaces the stored hash: the code of the first call, which
    get_jwt_token accepted before, is then answered 400 'Wrong
    confirmation code', provided the two codes do not collide under the
    hasher with the new salt. *)
Theorem new_code_replaces_old (request token_request : Request) (w : World)
  (email : string) (submitted : CodeSubmission) :
  SendCodeSerializer_validation (data request) = inr email ->
  (length (filter (email_is email) (users w)) <= 1)%nat ->
  CheckConfirmationCodeSerializer_validation (data token_request)
  = inr submitted ->
  sub_email submitted = email ->
  sub_confirmation_code submitted = str_uuid (uuid4_draw (draws w)) ->
  hasher_digest (salt_draw (S (S (S (draws w)))))
                (str_uuid (uuid4_draw (draws w)))
  <> hasher_digest (salt_draw (S (S (S (draws w)))))
                   (str_uuid (uuid4_draw (S (S (draws w))))) ->
  (exists response w',
     get_jwt_token token_request (snd (send_confirmation_code request w))
     = (inr response, w') /\
     status response = HTTP_200_OK) /\
  get_jwt_token token_request
    (snd (send_confirmation_code request
            (snd (send_confirmation_code request w))))
  = (inr wrong_code_response,
     snd (send_confirmation_code request
            (snd (send_confirmation_code request w)))).
Proof.
  intros Hvalid Hone Hvalid' Hsame Hcode Hdistinct.
  destruct (users_after_send_one email w Hone) as (u1 & Hu1 & _ & Hcode1).
  rewrite (send_confirmation_code_eq request w), Hvalid. cbn [snd].
  set (w1 := mkWorld _ _ _ _ _ _ _).
  assert (Hone1 : (length (filter (email_is email) (users w1)) <= 1)%nat).
  { cbn [users w1]. rewrite Hu1. cbn. lia. }
  destruct (users_after_send_one email w1 Hone1) as (u2 & Hu2 & _ & Hcode2).
  split.
  - rewrite get_jwt_token_eq, Hvalid', Hsame. cbn [users w1].
    rewrite Hu1, Hcode1, Hcode, check_password_make.
    do 2 eexists. split; reflexivity.
  - rewrite (send_confirmation_code_eq request w1), Hvalid. cbn [snd].
    rewrite get_jwt_token_eq, Hvalid', Hsame. cbn [users].
    rewrite Hu2, Hcode2, Hcode. cbn [draws w1].
    assert (Hwrong :
      check_password (str_uuid (uuid4_draw (draws w)))
        (Some (hasher_encode (str_uuid (uuid4_draw (S (S (draws w)))))
                             (salt_draw (S (S (S (draws w)))))))
      = inr false).
    { rewrite check_password_Some. f_equal. cbn.
      rewrite String.eqb_refl. cbn. apply String.eqb_neq.
      exact Hdistinct. }
    rewrite Hwrong. reflexivity.
Qed.


(** X7: make_password draws one salt and the encoding it returns is
    matched by the password it was made of; another password matches it
    exactly when the hasher gives both the same digest under that salt. *)
Theorem make_password_round_trip (password other : string) (w : World) :
  exists encoded,
    make_password password w = (inr encoded, set_draws (S (draws w)) w) /\
    enc_salt encoded = salt_draw (draws w) /\
    check_password password (Some encoded) = inr true /\
    (check_password other (Some encoded) = inr true <->
     hasher_digest (salt_draw (draws w)) other
     = hasher_digest (salt_draw (draws w)) password).
Proof.
  eexists. split; [reflexivity |]. split; [reflexivity |].
  split; [apply check_password_make |].
  rewrite check_password_true. cbn. tauto.
Qed.

End AuthenticationEdges.

(** X8: is_valid validates once: after a first call, a further call
    returns the same answer and leaves the serializer as it is; when the
    answer is true the validated data can be read and there are no
    errors, when it is false the errors are kept and a call that may
    raise raises them. *)
Theorem is_valid_cached {V : Type} (self self' : Serializer V)
  (raise_exception valid : bool) :
  is_valid self raise_exception = inr (valid, self') ->
  is_valid self' false = inr (valid, self') /\
  (valid = true ->
   errors self' = None /\ exists v, validated_data self' = inr v) /\
  (valid = false ->
   exists detail,
     errors self' = Some detail /\
     is_valid self' true = inl (ValidationError detail)).
Proof.
  unfold is_valid, errors, validated_data.
  destruct self as [rv d [[detail | v] |]]; cbn.
  - destruct raise_exception; [discriminate |].
    intros H; inversion H; subst; cbn.
    split; [reflexivity |]. split; [discriminate |].
    intros _. exists detail. split; reflexivity.
  - intros H; inversion H; subst; cbn.
    split; [reflexivity |]. split; [| discriminate].
    intros _. split; [reflexivity |]. exists v. reflexivity.
  - destruct (rv d) as [detail | v] eqn:E.
    + destruct raise_exception; [discriminate |].
      intros H; inversion H; subst; cbn.
      split; [reflexivity |]. split; [discriminate |].
      intros _. exists detail. split; reflexivity.
    + intros H; inversion H; subst; cbn.
      split; [reflexivity |]. split; [| discriminate].
      intros _. split; [reflexivity |]. exists v. reflexivity.
Qed.

Lemma get_jwt_token_unknown_email_witness :
  api_view [POST] (get_jwt_token (env := Demo.env)) Demo.carol_request
    Demo.world
  = (mkResponse (Dict [("detail", "Not found.")]) HTTP_404_NOT_FOUND,
     Demo.world).
Proof.
  refine (proj2 (get_jwt_token_unknown_email (env := Demo.env)
                   Demo.carol_request Demo.world
                   (mkCodeSubmission "carol@yamdb.ru" "0000") eq_refl _)
            eq_refl).
  intros u [<- | []]. cbn. discriminate.
Defined.


Lemma new_code_replaces_old_witness :
  get_jwt_token (env := Demo.env) Demo.token_request Demo.after_second_send
  = (inr wrong_code_response, Demo.after_second_send).
Proof.
  refine (proj2 (new_code_replaces_old (env := Demo.env) Demo.send_request
                   Demo.token_request Demo.world "alice@yamdb.ru"
                   Demo.alice_submission eq_refl _ eq_refl eq_refl eq_refl
                   _)).
  - cbn. lia.
  - cbn. discriminate.
Defined.


Lemma is_valid_cached_witness :
  is_valid (mkSerializer Demo.validate_email (data Demo.send_request)
                         (Some (inr "alice@yamdb.ru"))) false
  = inr (true,
         mkSerializer Demo.validate_email (data Demo.send_request)
                      (Some (inr "alice@yamdb.ru"))).
Proof.
  exact (proj1 (is_valid_cached
                  (SendCodeSerializer (env := Demo.env)
                     (data Demo.send_request))
                  (mkSerializer Demo.validate_email (data Demo.send_request)
                                (Some (inr "alice@yamdb.ru")))
                  true true eq_refl)).
Defined.

(** ** Reviews of a title *)

Section ReviewsOfTitle.

Lemma no_title_no_match (pk : Z) (l : list Title.t) :
  (forall t, In t l -> Title.id t <> pk) -> filter (title_pk_is pk) l = [].
Proof.
  intros Hnone. induction l as [| x l IH]; cbn [filter]; [reflexivity |].
  assert (E : title_pk_is pk x = false).
  { unfold title_pk_is. apply Z.eqb_neq. apply Hnone. left. reflexivity. }
  rewrite E. apply IH. intros t Hin. apply Hnone. right. exact Hin.
Qed.

Lemma title_pk_selects_row (title : Title.t) (l : list Title.t) :
  NoDup (map Title.id l) ->
  In title l ->
  filter (title_pk_is (Title.id title)) l = [title].
Proof.
  induction l as [| x l IH]; cbn [map In]; [tauto |].
  intros Hnodup Hin.
  inversion Hnodup as [| pk ids Hfresh Hrest]; subst.
  destruct Hin as [-> | Hin]; cbn [filter].
  - unfold title_pk_is at 1. rewrite Z.eqb_refl. f_equal.
    apply no_title_no_match. intros t Hin Heq.
    apply Hfresh. rewrite <- Heq. apply in_map. exact Hin.
  - assert (Hneq : title_pk_is (Title.id title) x = false).
    { unfold title_pk_is. apply Z.eqb_neq. intros Heq.
      apply Hfresh. rewrite Heq. apply in_map. exact Hin. }
    rewrite Hneq. apply IH; assumption.
Qed.

(** X9: the review view set looks the title up by its key.  When no title
    has the key, both hooks write nothing and raise Http404 if the key is
    in the range of 64-bit keys, and OverflowError, a server error, if it
    is not.  When a title has the key, get_queryset returns exactly the
    reviews of that title, and perform_create adds one review with the
    validated text and score whose author is the requesting user and
    whose title is that title. *)
Theorem ReviewViewSet_scoped_to_title (kwargs : Kwargs) (request : Request)
  (validated_text : string) (validated_score : Z) (w : World) :
  ((forall t, In t (titles w) -> Title.id t <> kw_title_id kwargs) ->
   (in_int64 (kw_title_id kwargs) = true ->
    ReviewViewSet_get_queryset kwargs w = (inl Http404, w) /\
    ReviewViewSet_perform_create kwargs request validated_text
      validated_score w = (inl Http404, w)) /\
   (in_int64 (kw_title_id kwargs) = false ->
    ReviewViewSet_get_queryset kwargs w = (inl OverflowError, w) /\
    ReviewViewSet_perform_create kwargs request validated_text
      validated_score w = (inl OverflowError, w) /\
    status (exception_handler OverflowError)
    = HTTP_500_INTERNAL_SERVER_ERROR)) /\
  (forall title,
     NoDup (map Title.id (titles w)) ->
     In title (titles w) ->
     Title.id title = kw_title_id kwargs ->
     (exists listed,
        ReviewViewSet_get_queryset kwargs w = (inr listed, w) /\
        forall r, In r listed <->
                  In r (reviews w) /\ Review.title_id r = Title.id title) /\
     (forall author,
        user request = Some author ->
        exists r,
          ReviewViewSet_perform_create kwargs request validated_text
            validated_score w
          = (inr r, set_reviews (reviews w ++ [r]) w) /\
          Review.author_id r = User.id author /\
          Review.title_id r = Title.id title /\
          Review.score r = validated_score /\
          Review.text r = validated_text)).
Proof.
  unfold ReviewViewSet_get_queryset, ReviewViewSet_perform_create.
  unfold bind, gets, get_object_or_404_by_key.
  split.
  - intros Hnone. rewrite (no_title_no_match _ _ Hnone). cbn [forallb].
    split; intros Hrange; rewrite Hrange; repeat split; reflexivity.
  - intros title Hnodup Hin Hid. rewrite <- Hid.
    rewrite (title_pk_selects_row _ _ Hnodup Hin).
    split.
    + eexists. split; [reflexivity |].
      intros r. unfold title_reviews, of_title. rewrite filter_In, Z.eqb_eq.
      reflexivity.
    + intros author Hauthor. rewrite Hauthor.
      eexists. split; [reflexivity |]. repeat split; reflexivity.
Qed.

(** X10: a review created by perform_create gets a key no review had and
    is what get_queryset then lists last, after the reviews the title
    had; the reviews of every other title are the ones they were. *)
Theorem ReviewViewSet_create_then_list (kwargs : Kwargs) (request : Request)
  (validated_text : string) (validated_score : Z) (w : World)
  (title : Title.t) (author : User.t) :
  NoDup (map Title.id (titles w)) ->
  In title (titles w) ->
  Title.id title = kw_title_id kwargs ->
  user request = Some author ->
  exists r w',
    ReviewViewSet_perform_create kwargs request validated_text
      validated_score w = (inr r, w') /\
    ~ In (Review.id r) (map Review.id (reviews w)) /\
    ReviewViewSet_get_queryset kwargs w'
    = (inr (title_reviews title (reviews w) ++ [r])%list, w') /\
    forall other,
      Title.id other <> Title.id title ->
      title_reviews other (reviews w') = title_reviews other (reviews w).
Proof.
  intros Hnodup Hin Hid Hauthor.
  unfold ReviewViewSet_get_queryset, ReviewViewSet_perform_create.
  unfold bind, gets, get_object_or_404_by_key.
  rewrite <- Hid, (title_pk_selects_row _ _ Hnodup Hin), Hauthor.
  do 2 eexists. split; [reflexivity |].
  split; [apply next_pk_fresh |].
  cbn [titles reviews set_reviews].
  rewrite (title_pk_selects_row _ _ Hnodup Hin).
  split.
  - unfold ret. f_equal. f_equal.
    unfold title_reviews, set_reviews. cbn [reviews].
    rewrite filter_app. cbn [filter].
    unfold of_title at 2. cbn [Review.title_id]. rewrite Z.eqb_refl.
    reflexivity.
  - intros other Hother.
    unfold title_reviews, set_reviews. cbn [reviews].
    rewrite filter_app. cbn [filter].
    unfold of_title at 2. cbn [Review.title_id].
    assert (E : Z.eqb (Title.id title) (Title.id other) = false).
    { apply Z.eqb_neq. congruence. }
    rewrite E. apply app_nil_r.
Qed.

(** X11: a comment created by perform_create gets a key no comment had
    and is what get_queryset then lists last, after the comments the
    review had; the comments of every other review are the ones they
    were. *)
Theorem CommentViewSet_create_then_list (kwargs : Kwargs)
  (request : Request) (validated_text : string) (w : World)
  (review : Review.t) (author : User.t) :
  NoDup (map Review.id (reviews w)) ->
  In review (reviews w) ->
  Review.id review = kw_review_id kwargs ->
  Review.title_id review = kw_title_id kwargs ->
  user request = Some author ->
  exists c w',
    CommentViewSet_perform_create kwargs request validated_text w
    = (inr c, w') /\
    ~ In (Comment.id c) (map Comment.id (comments w)) /\
    CommentViewSet_get_queryset kwargs w'
    = (inr (review_comments review (comments w) ++ [c])%list, w') /\
    forall other,
      Review.id other <> Review.id review ->
      review_comments other (comments w')
      = review_comments other (comments w).
Proof.
  intros Hnodup Hin Hid Htitle Hauthor.
  assert (Hrow : filter (review_pk_is (kw_review_id kwargs))
                   (filter (of_title (kw_title_id kwargs)) (reviews w))
                 = [review]).
  { rewrite <- Hid, <- Htitle. apply pk_selects_row;
      [exact Hnodup | exact Hin | unfold of_title; apply Z.eqb_refl]. }
  unfold CommentViewSet_get_queryset, CommentViewSet_perform_create.
  unfold bind, gets, get_object_or_404_by_key.
  rewrite Hrow, Hauthor.
  do 2 eexists. split; [reflexivity |].
  split; [apply next_pk_fresh |].
  cbn [reviews comments set_comments]. rewrite Hrow.
  split.
  - unfold ret. f_equal. f_equal.
    unfold review_comments, set_comments. cbn [comments].
    rewrite filter_app. cbn [filter].
    cbn [Comment.review_id]. rewrite Z.eqb_refl. reflexivity.
  - intros other Hother.
    unfold review_comments, set_comments. cbn [comments].
    rewrite filter_app. cbn [filter].
    cbn [Comment.review_id].
    assert (E : Z.eqb (Review.id review) (Review.id other) = false).
    { apply Z.eqb_neq. congruence. }
    rewrite E. apply app_nil_r.
Qed.

End ReviewsOfTitle.

Lemma ReviewViewSet_scoped_to_title_witness :
  NoDup (map Title.id (titles Demo.world)) /\
  (exists listed,
     ReviewViewSet_get_queryset Demo.review_kwargs Demo.world
     = (inr listed, Demo.world)) /\
  ReviewViewSet_get_queryset Demo.huge_kwargs Demo.world
  = (inl OverflowError, Demo.world).
Proof.
  assert (Hnodup : NoDup (map Title.id (titles Demo.world))).
  { cbn. repeat constructor; cbn; intuition discriminate. }
  split; [exact Hnodup |]. split.
  - destruct (proj1 (proj2 (ReviewViewSet_scoped_to_title Demo.review_kwargs
                              Demo.review_request "better each time" 8
                              Demo.world)
                       (Title.mk 2 "Solaris" 1972) Hnodup
                       (or_introl eq_refl) eq_refl)) as (listed & Hcall & _).
    exists listed. exact Hcall.
  - refine (proj1 (proj2 (proj1 (ReviewViewSet_scoped_to_title
                                   Demo.huge_kwargs Demo.review_request
                                   "better each time" 8 Demo.world) _)
                     eq_refl)).
    intros t Hin. cbn in Hin.
    destruct Hin as [<- | [<- | [<- | []]]]; cbn; discriminate.
Defined.

Lemma ReviewViewSet_create_then_list_witness :
  NoDup (map Title.id (titles Demo.world)) /\
  exists r w',
    ReviewViewSet_perform_create Demo.review_kwargs Demo.review_request
      "better each time" 8 Demo.world = (inr r, w') /\
    ReviewViewSet_get_queryset Demo.review_kwargs w'
    = (inr [Review.mk 2 2 1 7 "long"; r], w').
Proof.
  assert (Hnodup : NoDup (map Title.id (titles Demo.world))).
  { cbn. repeat constructor; cbn; intuition discriminate. }
  split; [exact Hnodup |].
  destruct (ReviewViewSet_create_then_list Demo.review_kwargs
              Demo.review_request "better each time" 8 Demo.world
              (Title.mk 2 "Solaris" 1972) Demo.bob Hnodup
              (or_introl eq_refl) eq_refl eq_refl)
    as (r & w' & Hcreate & _ & Hlist & _).
  exists r, w'. split; [exact Hcreate | exact Hlist].
Defined.

Lemma CommentViewSet_create_then_list_witness :
  NoDup (map Review.id (reviews Demo.world)) /\
  exists c w',
    CommentViewSet_perform_create Demo.comment_kwargs Demo.comment_request
      "third time" Demo.world = (inr c, w') /\
    CommentViewSet_get_queryset Demo.comment_kwargs w' = (inr [c], w').
Proof.
  assert (Hnodup : NoDup (map Review.id (reviews Demo.world))).
  { cbn. repeat constructor; cbn; intuition discriminate. }
  split; [exact Hnodup |].
  destruct (CommentViewSet_create_then_list Demo.comment_kwargs
              Demo.comment_request "third time" Demo.world
              (Review.mk 3 1 1 10 "again") Demo.bob Hnodup
              (or_intror (or_intror (or_introl eq_refl)))
              eq_refl eq_refl eq_refl)
    as (c & w' & Hcreate & _ & Hlist & _).
  exists c, w'. split; [exact Hcreate | exact Hlist].
Defined.

(** ** Ratings and the scores of the reviews *)

Section RatingOfScores.
Context {env : Env}.

(** X12: the query set of TitleViewSet has one row for every title of the
    table and no other, in ascending order of id; the rating of a row is
    NULL exactly when the title has no review, and otherwise it is the
    average the database takes over the scores of exactly the reviews of
    that title. *)
Theorem TitleViewSet_queryset_rows (w : World) :
  NoDup (map Title.id (titles w)) ->
  Permutation (map fst (TitleViewSet_queryset w)) (titles w) /\
  Sorted (fun a b => Title.id (fst a) <= Title.id (fst b))
         (TitleViewSet_queryset w) /\
  forall t rating,
    In (t, rating) (TitleViewSet_queryset w) ->
    (rating = None <->
     forall r, In r (reviews w) -> Review.title_id r <> Title.id t) /\
    (rating <> None ->
     exists scores,
       Permutation scores
         (map Review.score
            (filter (fun r => Z.eqb (Review.title_id r) (Title.id t))
                    (reviews w))) /\
       rating = Some (database_avg scores)).
Proof.
  intros Hnodup. split; [| split].
  - unfold TitleViewSet_queryset.
    apply perm_trans with
      (map fst (annotate_rating
                  (group_by_id (left_outer_join (titles w) (reviews w))))).
    + apply Permutation_map. apply order_by_id_perm.
    + rewrite (annotated_rows w Hnodup), map_rev, map_map. cbn [fst].
      rewrite map_id. apply Permutation_sym. apply Permutation_rev.
  - apply order_by_id_sorted.
  - intros t rating Hin.
    apply (in_queryset w t rating Hnodup) in Hin. destruct Hin as [_ ->].
    unfold title_scores.
    change (of_title (Title.id t))
      with (fun r => Z.eqb (Review.title_id r) (Title.id t)).
    destruct (filter (fun r => Z.eqb (Review.title_id r) (Title.id t))
                     (reviews w)) as [| r0 l] eqn:E; cbn [map].
    + split; [| intros H; contradiction].
      split; [| reflexivity]. intros _ r Hr Hsame.
      assert (Hfiltered :
        In r (filter (fun r => Z.eqb (Review.title_id r) (Title.id t))
                     (reviews w))).
      { apply filter_In. split; [exact Hr |]. apply Z.eqb_eq. exact Hsame. }
      rewrite E in Hfiltered. exact Hfiltered.
    + split.
      * split; [discriminate |]. intros Hnone. exfalso.
        assert (Hr0 :
          In r0 (filter (fun r => Z.eqb (Review.title_id r) (Title.id t))
                        (reviews w))).
        { rewrite E. left. reflexivity. }
        apply filter_In in Hr0. destruct Hr0 as [Hr0 Hsame].
        apply (Hnone r0 Hr0). apply Z.eqb_eq. exact Hsame.
      * intros _. eexists. split; [apply Permutation_refl | reflexivity].
Qed.

(** X13: after perform_create of the review view set added a review to a
    title, the rating of that title in the query set of TitleViewSet is
    the average the database takes over its earlier scores and the new
    score, and the rating of every other title is taken over the scores
    the title had. *)
Theorem rating_after_review (kwargs : Kwargs) (request : Request)
  (validated_text : string) (validated_score : Z) (w : World)
  (title : Title.t) (author : User.t) :
  NoDup (map Title.id (titles w)) ->
  In title (titles w) ->
  Title.id title = kw_title_id kwargs ->
  user request = Some author ->
  forall t rating,
    In (t, rating)
       (TitleViewSet_queryset
          (snd (ReviewViewSet_perform_create kwargs request validated_text
                  validated_score w))) ->
    exists scores,
      Permutation scores
        (map Review.score
           (filter (fun r => Z.eqb (Review.title_id r) (Title.id t))
                   (reviews w))
         ++ (if Z.eqb (Title.id title) (Title.id t)
             then [validated_score] else []))%list /\
      rating = match scores with
               | [] => None
               | _ :: _ => Some (database_avg scores)
               end.
Proof.
  intros Hnodup Hin Hid Hauthor t rating.
  unfold ReviewViewSet_perform_create, bind, gets, get_object_or_404_by_key.
  rewrite <- Hid, (title_pk_selects_row _ _ Hnodup Hin), Hauthor.
  unfold ret, ReviewSerializer_save. cbn [snd].
  intros Hrow. apply in_queryset in Hrow; [| exact Hnodup].
  destruct Hrow as [_ ->].
  eexists. split; [| reflexivity].
  unfold title_scores, set_reviews. cbn [reviews].
  rewrite filter_app, map_app. cbn [filter].
  unfold of_title. cbn [Review.title_id].
  destruct (Z.eqb (Title.id title) (Title.id t)); apply Permutation_refl.
Qed.

End RatingOfScores.

Lemma TitleViewSet_queryset_rows_witness :
  NoDup (map Title.id (titles Demo.world)) /\
  Permutation (map fst (TitleViewSet_queryset (env := Demo.env) Demo.world))
              (titles Demo.world).
Proof.
  assert (Hnodup : NoDup (map Title.id (titles Demo.world))).
  { cbn. repeat constructor; cbn; intuition discriminate. }
  split; [exact Hnodup |].
  exact (proj1 (TitleViewSet_queryset_rows (env := Demo.env) Demo.world
                  Hnodup)).
Defined.

Lemma rating_after_review_witness :
  NoDup (map Title.id (titles Demo.world)) /\
  exists scores,
    Permutation scores [7; 8] /\
    Some (S754_finite false 8444249301319680 (-50))
    = match scores with
      | [] => None
      | _ :: _ => Some (database_avg (Env := Demo.env) scores)
      end.
Proof.
  assert (Hnodup : NoDup (map Title.id (titles Demo.world))).
  { cbn. repeat constructor; cbn; intuition discriminate. }
  split; [exact Hnodup |].
  refine (rating_after_review (env := Demo.env) Demo.review_kwargs
            Demo.review_request "better each time" 8 Demo.world
            (Title.mk 2 "Solaris" 1972) Demo.bob Hnodup
            (or_introl eq_refl) eq_refl eq_refl
            (Title.mk 2 "Solaris" 1972)
            (Some (S754_finite false 8444249301319680 (-50))) _).
  vm_compute. right. left. reflexivity.
Defined.

(** ** The row behind /me *)

Section OwnRow.
Context {env : Env}.

Lemma APIUser_patch_eq (request : Request) (w : World)
  (request_user u : User.t) :
  user request = Some request_user ->
  filter (pk_is (User.id request_user)) (users w) = [u] ->
  APIUser_patch request w
  = match UserSerializer_validation (users w) u (data request) with
    | inl detail => (inr (mkResponse (Errors detail) HTTP_400_BAD_REQUEST), w)
    | inr attrs =>
        (inr (mkResponse
                (Dict (UserSerializer_representation
                         (fold_left User_setattr attrs u)))
                HTTP_200_OK),
         set_users
           (map (fun x => if pk_is (User.id request_user) x
                          then fold_left User_setattr attrs u else x)
                (users w)) w)
    end.
Proof.
  intros Hauth Hrow.
  assert (Hid : User.id u = User.id request_user).
  { assert (Hin : In u (filter (pk_is (User.id request_user)) (users w))).
    { rewrite Hrow. left. reflexivity. }
    apply filter_In in Hin. destruct Hin as [_ Hpk].
    unfold pk_is in Hpk. apply Z.eqb_eq. exact Hpk. }
  unfold APIUser_patch. rewrite Hauth.
  unfold bind at 1. unfold gets at 1. unfold bind at 1.
  unfold get_object_or_404. rewrite Hrow.
  unfold ret at 1, bind at 1, lift, is_valid, UserSerializer. cbn.
  destruct (UserSerializer_validation (users w) u (data request))
    as [detail | attrs]; [reflexivity |].
  cbn. unfold User_save, modify, ret.
  rewrite fold_User_setattr_id, Hid.
  change (fun u0 : User.t => Z.eqb (User.id u0) (User.id request_user))
    with (pk_is (User.id request_user)).
  rewrite (filter_existsb _ _ _ Hrow). reflexivity.
Qed.

(** X14: for an authenticated user get answers 200 with the
    representation of the row stored under the user's key and writes
    nothing; when the table has no row under that key, get and patch
    both raise Http404 and write nothing. *)
Theorem APIUser_get_own_row (request : Request) (w : World)
  (request_user : User.t) :
  user request = Some request_user ->
  (forall u,
     filter (pk_is (User.id request_user)) (users w) = [u] ->
     APIUser_get request w
     = (inr (mkResponse (Dict (UserSerializer_representation u))
                        HTTP_200_OK), w)) /\
  (filter (pk_is (User.id request_user)) (users w) = [] ->
   APIUser_get request w = (inl Http404, w) /\
   APIUser_patch request w = (inl Http404, w)).
Proof.
  intros Hauth. unfold APIUser_get, APIUser_patch. rewrite Hauth.
  unfold bind, gets, get_object_or_404. split.
  - intros u Hrow. rewrite Hrow. reflexivity.
  - intros Hnone. rewrite Hnone. split; reflexivity.
Qed.

(** X15: a patch that the serializer accepts writes the row of the
    requesting user only: the keys of the table and every row under
    another key are as before, as are the other tables and the outbox;
    a get that follows answers with the data the patch answered with. *)
Theorem APIUser_patch_own_row_only (request : Request) (w : World)
  (request_user u : User.t) (attrs : list (string * string)) :
  user request = Some request_user ->
  filter (pk_is (User.id request_user)) (users w) = [u] ->
  UserSerializer_validation (users w) u (data request) = inr attrs ->
  exists response w',
    APIUser_patch request w = (inr response, w') /\
    map User.id (users w') = map User.id (users w) /\
    (forall x, User.id x <> User.id request_user ->
               (In x (users w') <-> In x (users w))) /\
    w' = set_users (users w') w /\
    APIUser_get request w' = (inr response, w').
Proof.
  intros Hauth Hrow Hvalid.
  rewrite (APIUser_patch_eq request w request_user u Hauth Hrow), Hvalid.
  set (updated := fold_left User_setattr attrs u).
  assert (Hid : User.id updated = User.id request_user).
  { unfold updated. rewrite fold_User_setattr_id.
    assert (Hin : In u (filter (pk_is (User.id request_user)) (users w))).
    { rewrite Hrow. left. reflexivity. }
    apply filter_In in Hin. destruct Hin as [_ Hpk].
    unfold pk_is in Hpk. apply Z.eqb_eq. exact Hpk. }
  do 2 eexists. split; [reflexivity |]. cbn [users set_users].
  split; [| split; [| split]].
  - rewrite map_map. apply map_ext. intros x.
    destruct (pk_is (User.id request_user) x) eqn:E; [| reflexivity].
    unfold pk_is in E. apply Z.eqb_eq in E. congruence.
  - intros x Hother. rewrite in_map_iff. split.
    + intros (y & Hy & Hin).
      destruct (pk_is (User.id request_user) y); [congruence |].
      subst y. exact Hin.
    + intros Hin. exists x. split; [| exact Hin].
      assert (E : pk_is (User.id request_user) x = false).
      { unfold pk_is. apply Z.eqb_neq. exact Hother. }
      rewrite E. reflexivity.
  - reflexivity.
  - unfold APIUser_get. rewrite Hauth.
    unfold bind, gets, get_object_or_404. cbn [users set_users].
    rewrite (filter_replace (pk_is (User.id request_user))), Hrow;
      [reflexivity |].
    unfold pk_is. rewrite Hid. apply Z.eqb_refl.
Qed.

End OwnRow.

(** ** What runs of the authentication views leave alone *)

Section RunFrame.
Context {env : Env}.

Lemma step_frame (e : Event) (w : World) :
  titles (step w e) = titles w /\
  reviews (step w e) = reviews w /\
  comments (step w e) = comments w /\
  (exists mails, outbox (step w e) = (outbox w ++ mails)%list) /\
  (draws w <= draws (step w e))%nat.
Proof.
  destruct e as [seconds | request | request]; cbn [step].
  - repeat split; try reflexivity. exists []. symmetry. apply app_nil_r.
  - unfold api_view. destruct (existsb _ _).
    + rewrite send_confirmation_code_eq.
      destruct (SendCodeSerializer_validation (data request))
        as [detail | email]; cbn.
      * repeat split; try reflexivity; try lia.
        exists []. symmetry. apply app_nil_r.
      * repeat split; try reflexivity; try lia.
        eexists. reflexivity.
    + destruct (Method_eqb _ _); repeat split; try reflexivity;
        exists []; symmetry; apply app_nil_r.
  - unfold api_view. destruct (existsb _ _).
    + rewrite get_jwt_token_eq.
      destruct (CheckConfirmationCodeSerializer_validation (data request))
        as [detail | sub].
      * repeat split; try reflexivity.
        exists []. symmetry. apply app_nil_r.
      * destruct (filter _ _) as [| u [| u' l]];
          try destruct (check_password _ _) as [ex | []]; cbn;
          repeat split; try reflexivity; try lia;
          exists []; symmetry; apply app_nil_r.
    + destruct (Method_eqb _ _); repeat split; try reflexivity;
        exists []; symmetry; apply app_nil_r.
Qed.

(** X16: a run of clock ticks and calls of the two authentication views
    writes neither titles nor reviews nor comments, only adds mail to the
    outbox, and never gives a random draw twice: the counter of draws
    does not go down. *)
Theorem run_frame (trace : list Event) (w : World) :
  titles (run trace w) = titles w /\
  reviews (run trace w) = reviews w /\
  comments (run trace w) = comments w /\
  (exists mails, outbox (run trace w) = (outbox w ++ mails)%list) /\
  (draws w <= draws (run trace w))%nat.
Proof.
  unfold run. revert w.
  induction trace as [| e trace IH]; intros w; cbn [fold_left].
  - repeat split; try reflexivity. exists []. symmetry. apply app_nil_r.
  - destruct (IH (step w e)) as (Ht & Hr & Hc & [mails Hm] & Hd).
    destruct (step_frame e w) as (Ht' & Hr' & Hc' & [mails' Hm'] & Hd').
    split; [congruence |]. split; [congruence |]. split; [congruence |].
    split; [| lia].
    exists (mails' ++ mails)%list. rewrite Hm, Hm'. symmetry. apply app_assoc.
Qed.

End RunFrame.

(** X17: TitleViewSet.get_serializer_class returns TitleCreateSerializer
    exactly for the action names update, partial_update and create, which
    are the actions the router binds to PUT, PATCH and POST; for the other
    routed actions, for the action metadata of OPTIONS and for a request
    routed to no action it returns TitleListSerializer. *)
Theorem TitleViewSet_serializer_by_method :
  (forall name,
     TitleViewSet_get_serializer_class (Some name) = TitleCreateSerializer <->
     In name ["update"; "partial_update"; "create"]) /\
  (forall action : Action,
     TitleViewSet_get_serializer_class (Some (action_name action))
     = TitleCreateSerializer <->
     In (action_method action) [POST; PUT; PATCH]) /\
  TitleViewSet_get_serializer_class (Some "metadata") = TitleListSerializer /\
  TitleViewSet_get_serializer_class None = TitleListSerializer.
Proof.
  split; [| split; [| split; reflexivity]].
  - intros name. unfold TitleViewSet_get_serializer_class.
    destruct (existsb (String.eqb name)
                      ["update"; "partial_update"; "create"]) eqn:E.
    + split; [| reflexivity]. intros _.
      apply existsb_exists in E. destruct E as (x & Hin & Heq).
      apply String.eqb_eq in Heq. subst x. exact Hin.
    + split; [discriminate |]. intros Hin. exfalso.
      assert (E' : existsb (String.eqb name)
                     ["update"; "partial_update"; "create"] = true).
      { apply existsb_exists. exists name.
        split; [exact Hin | apply String.eqb_refl]. }
      congruence.
  - intros action. destruct action; cbn; split; intros H;
      try reflexivity; try discriminate; intuition discriminate.
Qed.

Lemma APIUser_get_own_row_witness :
  APIUser_get (env := Demo.env) Demo.patch_request Demo.world
  = (inr (mkResponse (Dict (Demo.represent_user Demo.bob)) HTTP_200_OK),
     Demo.world).
Proof.
  exact (proj1 (APIUser_get_own_row (env := Demo.env) Demo.patch_request
                  Demo.world Demo.bob eq_refl) Demo.bob eq_refl).
Defined.

Lemma APIUser_patch_own_row_only_witness :
  exists response w',
    APIUser_patch (env := Demo.env) Demo.patch_request Demo.world
    = (inr response, w') /\
    APIUser_get (env := Demo.env) Demo.patch_request w' = (inr response, w').
Proof.
  destruct (APIUser_patch_own_row_only (env := Demo.env) Demo.patch_request
              Demo.world Demo.bob Demo.bob [("bio", "projectionist")]
              eq_refl eq_refl eq_refl)
    as (response & w' & Hpatch & _ & _ & _ & Hget).
  exists response, w'. split; [exact Hpatch | exact Hget].
Defined.

Lemma TitleViewSet_serializer_by_method_witness :
  In (action_method partial_update_action) [POST; PUT; PATCH].
Proof.
  exact (proj1 (proj1 (proj2 TitleViewSet_serializer_by_method)
                  partial_update_action) eq_refl).
Defined.

Lemma make_password_round_trip_witness :
  exists encoded,
    make_password (env := Demo.env) "16fd2706-8baf-433b-82eb-8c7fada847da"
      Demo.world = (inr encoded, set_draws 1 Demo.world) /\
    check_password (env := Demo.env) "16fd2706-8baf-433b-82eb-8c7fada847da"
      (Some encoded) = inr true.
Proof.
  destruct (make_password_round_trip (env := Demo.env)
              "16fd2706-8baf-433b-82eb-8c7fada847da" "0000" Demo.world)
    as (encoded & Hmake & _ & Hcheck & _).
  exists encoded. split; [exact Hmake | exact Hcheck].
Defined.
